(** * The conversation controller of [static/chat.js]

    A shallow embedding of the browser-side chat widget: the listeners that
    [static/chat.js] registers on [DOMContentLoaded], the three helpers they
    share ([addMessage], [showTypingIndicator], [removeTypingIndicator]) and
    the session token mirrored in [localStorage].

    Conventions of the embedding.
    - A JavaScript string is the list of its UTF-16 code units.  Where the
      platform converts a string to a scalar-value string ([FormData]), the
      conversion is written out ([to_usv]).
    - A value is what [JSON.parse] can produce, or [undefined].  The
      conversion of a value to a string ([to_string]) fails where
      [String(v)] throws a TypeError.
    - The page is a record: the text area, the send button, the elements of
      the document that come before the children of [#chatMessages], these
      children, the variable [sessionId], [localStorage], the log of [fetch]
      calls and the log of [console.error].  An element is a tree; what the
      HTML parser builds for a string assigned to [innerHTML] is kept with
      that string.
    - A listener is a computation in a state-and-exception monad; an
      exception that leaves a listener is the result [Throw].
    - The [async] submit listener is cut at its [await]s: [submit] is the
      part that runs when the event is dispatched (up to and including the
      call of [fetch], and the [catch] block if something throws before);
      [settle] is the part that runs when the request has settled.  Nothing
      of the listener runs between [await fetch] and
      [await response.json()], so the two are one event of the model.
    - [marked.parse], the HTML parser, the numbers of the engine and the
      wall clock are not part of the file: the first three are interfaces
      ([Marked], [Engine]), the clock is an argument of every listener
      ([now], what [getCurrentTime()] returns while the listener runs).

    What the embedding takes for granted about the browser and the page.
    - [localStorage] can be read and has room for every write (no quota or
      security error).
    - [#chatMessages] stays in the document: none of its ancestors carries
      the id [typing-indicator].
    - Assigning a markup string to [innerHTML] builds elements and does
      nothing else: what the renderer produces runs no script.
    - The elements that come after the children of [#chatMessages], the
      scroll position and the focus are not part of the page record. *)

From Stdlib Require Import NArith ZArith Ascii String DecimalString.
From stdpp Require Import gmap list.

#[local] Set Warnings "-register-all".

(** ** Strings *)

Abbreviation jsstring := (list N).

(** An ASCII literal of the source as a list of code units. *)
Definition js (s : string) : jsstring :=
  map N_of_ascii (list_ascii_of_string s).

(** [Number::toString] on a non-negative integer (radix 10). *)
Definition js_of_N (n : N) : jsstring :=
  js (NilZero.string_of_uint (N.to_uint n)).

(** White space and line terminators of ECMAScript, the code units that
    [String.prototype.trim] strips. *)
Definition is_space (c : N) : bool :=
  ((9 <=? c) && (c <=? 13)
   || (c =? 32) || (c =? 160) || (c =? 5760)
   || (8192 <=? c) && (c <=? 8202)
   || (c =? 8232) || (c =? 8233) || (c =? 8239) || (c =? 8287)
   || (c =? 12288) || (c =? 65279))%N.

Fixpoint trimStart (s : jsstring) : jsstring :=
  match s with
  | c :: r => if is_space c then trimStart r else s
  | [] => []
  end.

Definition trimEnd (s : jsstring) : jsstring :=
  rev (trimStart (rev s)).

(** [s.trim()] *)
Definition trim (s : jsstring) : jsstring :=
  trimEnd (trimStart s).

(** [!s] for a string [s]. *)
Definition is_empty (s : jsstring) : bool :=
  match s with [] => true | _ => false end.

(** Leading (U+D800..U+DBFF) and trailing (U+DC00..U+DFFF) surrogates. *)
Definition is_high (c : N) : bool := ((55296 <=? c) && (c <=? 56319))%N.
Definition is_low (c : N) : bool := ((56320 <=? c) && (c <=? 57343))%N.

(** The conversion of a string to a scalar-value string, applied by
    [FormData.append] to its arguments: a surrogate that is not part of a
    pair becomes U+FFFD. *)
Fixpoint to_usv (s : jsstring) : jsstring :=
  match s with
  | [] => []
  | c :: r =>
      if is_high c then
        match r with
        | d :: r' => if is_low d then c :: d :: to_usv r'
                     else 65533%N :: to_usv r
        | [] => [65533%N]
        end
      else if is_low c then 65533%N :: to_usv r
      else c :: to_usv r
  end.

(** ** The document *)

(** The [sender] argument of [addMessage]; the file passes ['user'] and
    ['bot'] only. *)
Inductive Sender := user | bot.

Definition sender_name (s : Sender) : jsstring :=
  match s with user => js "user" | bot => js "bot" end.

(** An element, with its tag, its [className], its [id] and what is inside:
    children appended one by one, a [textContent], or a markup string
    assigned to [innerHTML] together with the elements the HTML parser built
    from it (the text between them is left out). *)
Inductive Node :=
| Elem (tag className id : jsstring) (content : Content)
with Content :=
| Kids (children : list Node)
| Text (s : jsstring)
| Html (markup : jsstring) (parsed : list Node).

Definition node_id (n : Node) : jsstring :=
  match n with Elem _ _ i _ => i end.

Definition node_class (n : Node) : jsstring :=
  match n with Elem _ c _ _ => c end.

Definition node_content (n : Node) : Content :=
  match n with Elem _ _ _ c => c end.

(** The elements directly below. *)
Definition kids_of (c : Content) : list Node :=
  match c with
  | Kids l => l
  | Text _ => []
  | Html _ l => l
  end.

(** [document.createElement('div')] with a class and a content. *)
Definition div (className : jsstring) (content : Content) : Node :=
  Elem (js "div") className [] content.

(** The two avatars: U+1F464 and U+1F331 as surrogate pairs. *)
Definition avatar_user : jsstring := [55357; 56420]%N.
Definition avatar_bot : jsstring := [55356; 57137]%N.

Definition avatar (s : Sender) : jsstring :=
  match s with user => avatar_user | bot => avatar_bot end.

(** The element [addMessage] builds (lines 78-104), given what went into
    [messageText] and the text of [messageTime]. *)
Definition message_node (s : Sender) (body : Content) (time : jsstring) : Node :=
  div (js "message " ++ sender_name s ++ js "-message")
    (Kids [ div (js "message-avatar") (Text (avatar s));
            div (js "message-content")
              (Kids [ div (js "message-text") body;
                      div (js "message-time") (Text time) ]) ]).

Definition typing_id : jsstring := js "typing-indicator".

(** The template literal of lines 124-128, and the three empty [span]
    elements the HTML parser builds from it. *)
Definition typing_markup : jsstring :=
  let line := [10%N] ++ repeat 32%N 12 ++ js "<span></span>" in
  line ++ line ++ line ++ [10%N] ++ repeat 32%N 8.

Definition span : Node := Elem (js "span") [] [] (Kids []).

(** The element [showTypingIndicator] builds (lines 111-132). *)
Definition typing_node : Node :=
  Elem (js "div") (js "message bot-message typing-indicator-container") typing_id
    (Kids [ div (js "message-avatar") (Text avatar_bot);
            div (js "message-content")
              (Kids [ div (js "typing-indicator")
                        (Html typing_markup [span; span; span]) ]) ]).

(** The element carries the id [typing-indicator]. *)
Definition is_typing (n : Node) : bool :=
  bool_decide (node_id n = typing_id).

(** The element or one below it carries the id. *)
Fixpoint has_typing (n : Node) : bool :=
  match n with
  | Elem _ _ i c =>
      bool_decide (i = typing_id)
      || match c with
         | Kids l => existsb has_typing l
         | Text _ => false
         | Html _ l => existsb has_typing l
         end
  end.

(** [getElementById('typing-indicator')] followed by [remove()], on the
    elements below [n]: the first one in tree order that carries the id
    leaves the tree, with everything below it.  [None] when there is none. *)
Fixpoint remove_in (n : Node) : option Node :=
  match n with
  | Elem t c i content =>
      let below :=
        fix below (l : list Node) : option (list Node) :=
          match l with
          | [] => None
          | k :: r =>
              if is_typing k then Some r
              else match remove_in k with
                   | Some k' => Some (k' :: r)
                   | None => option_map (cons k) (below r)
                   end
          end in
      match content with
      | Kids l => option_map (fun l' => Elem t c i (Kids l')) (below l)
      | Text _ => None
      | Html m l => option_map (fun l' => Elem t c i (Html m l')) (below l)
      end
  end.

(** The same on a list of elements in document order. *)
Fixpoint remove_first (l : list Node) : option (list Node) :=
  match l with
  | [] => None
  | k :: r =>
      if is_typing k then Some r
      else match remove_in k with
           | Some k' => Some (k' :: r)
           | None => option_map (cons k) (remove_first r)
           end
  end.

(** An element without the elements of id [typing-indicator] below it, and
    a list of elements without those of id [typing-indicator] in or below
    it: what no call of [removeTypingIndicator] can change. *)
Fixpoint purge (n : Node) : Node :=
  match n with
  | Elem t c i content =>
      let below :=
        fix below (l : list Node) : list Node :=
          match l with
          | [] => []
          | k :: r => if is_typing k then below r else purge k :: below r
          end in
      Elem t c i
        match content with
        | Kids l => Kids (below l)
        | Text s => Text s
        | Html m l => Html m (below l)
        end
  end.

Fixpoint purge_forest (l : list Node) : list Node :=
  match l with
  | [] => []
  | k :: r => if is_typing k then purge_forest r else purge k :: purge_forest r
  end.

(** The bubbles of the conversation: the children of [#chatMessages] that
    are not typing indicators, leaving out of account what carries the id
    [typing-indicator] inside them. *)
Definition bubbles (l : list Node) : list Node := purge_forest l.

(** How many typing indicators are shown among the children. *)
Fixpoint typing_count (l : list Node) : nat :=
  match l with
  | [] => O
  | n :: r => if is_typing n then S (typing_count r) else typing_count r
  end.

(** The text shown in a bubble made by [addMessage(text, 'user')]: the
    [textContent] of its [message-text] element. *)
Definition user_text (n : Node) : option jsstring :=
  match n with
  | Elem _ c [] (Kids [Elem _ _ [] (Text _);
                       Elem _ _ [] (Kids [Elem _ _ [] (Text t); Elem _ _ [] (Text _)])]) =>
      if bool_decide (c = js "message user-message") then Some t else None
  | _ => None
  end.

(** The texts of the user bubbles of a list of children, in order. *)
Definition user_texts (l : list Node) : list jsstring :=
  omap user_text (bubbles l).

(** [n.querySelector('.' + c)] for a single class name [c]: the first
    element below [n], in tree order, whose [className] is [c]. *)
Fixpoint query_class (c : jsstring) (n : Node) : option Node :=
  match n with
  | Elem _ _ _ content =>
      let below :=
        fix below (l : list Node) : option Node :=
          match l with
          | [] => None
          | k :: r =>
              if bool_decide (node_class k = c) then Some k
              else match query_class c k with
                   | Some found => Some found
                   | None => below r
                   end
          end in
      match content with
      | Kids l => below l
      | Text _ => None
      | Html _ l => below l
      end
  end.

(** What is inside the first element of class [c] below [n]. *)
Definition content_at (c : jsstring) (n : Node) : option Content :=
  node_content <$> query_class c n.

(** Every string that was assigned to [innerHTML] in or below a node. *)
Fixpoint node_markups (n : Node) : list jsstring :=
  match n with
  | Elem _ _ _ content =>
      match content with
      | Kids l =>
          (fix below (l : list Node) : list jsstring :=
             match l with
             | [] => []
             | k :: r => node_markups k ++ below r
             end) l
      | Text _ => []
      | Html m _ => [m]
      end
  end.

Definition markups (l : list Node) : list jsstring :=
  concat (map node_markups l).

(** ** Requests, exceptions, constants *)

(** A call of [fetch(url, {method, body})] with a [FormData] body, the
    entries in the order of their [append]. *)
Record Request := {
  req_url : jsstring;
  req_method : jsstring;
  req_body : list (jsstring * jsstring)
}.

(** What can be thrown inside the submit listener. *)
Inductive Exn :=
| FetchRejected      (* [fetch] rejects: the request could not be made *)
| BodyRejected       (* [response.json()] rejects: the body is not JSON *)
| PropertyOfNull     (* TypeError: reading a property of null/undefined *)
| NotPrimitive       (* TypeError: an object cannot be converted to a string *)
| MarkedThrew.       (* [marked.parse] throws *)

Inductive Res (A : Type) :=
| Ok (a : A)
| Throw (e : Exn).
Arguments Ok {A} a.
Arguments Throw {A} e.

Definition chatSessionId : jsstring := js "chatSessionId".

Definition apology : jsstring :=
  js "Sorry, I encountered an error. Please try again.".

(** ** Values *)

(** What the browser provides: its numbers, with the two operations the
    widget applies to them (the truth test and [Number::toString]), and its
    HTML parser, as the [innerHTML] setter of a [div] uses it (the elements
    built from a markup string). *)
Class Engine := {
  number : Type;
  number_truthy : number -> bool;
  number_to_string : number -> jsstring;
  parse_html : jsstring -> list Node
}.

Section Values.
Context {E : Engine}.

(** What a variable of this file can hold: [undefined], or a value produced
    by [JSON.parse].  An object is the list of its own properties, first
    binding wins. *)
Inductive Value :=
| VUndef
| VNull
| VBool (b : bool)
| VNum (x : number)
| VStr (s : jsstring)
| VArr (items : list Value)
| VObj (fields : list (jsstring * Value)).

(** The truth test of [if (v)], [!v] and [v || w]. *)
Definition truthy (v : Value) : bool :=
  match v with
  | VUndef | VNull => false
  | VBool b => b
  | VNum x => number_truthy x
  | VStr s => negb (is_empty s)
  | VArr _ | VObj _ => true
  end.

(** The object has an own property of that name. *)
Fixpoint has_own (fields : list (jsstring * Value)) (name : jsstring) : bool :=
  match fields with
  | [] => false
  | (k, _) :: r => bool_decide (k = name) || has_own r name
  end.

(** [String(v)]: the conversion applied by [localStorage.setItem],
    [FormData.append] and the [textContent] setter.  A parsed object has no
    callable property of its own, so an own [toString] hides
    [Object.prototype.toString] and the conversion throws a TypeError;
    without one the result is ["[object Object]"].  An array is joined with
    commas, [null] and [undefined] items giving the empty string. *)
Fixpoint to_string (v : Value) : Res jsstring :=
  match v with
  | VUndef => Ok (js "undefined")
  | VNull => Ok (js "null")
  | VBool true => Ok (js "true")
  | VBool false => Ok (js "false")
  | VNum x => Ok (number_to_string x)
  | VStr s => Ok s
  | VArr items =>
      let item w := match w with VUndef | VNull => Ok [] | _ => to_string w end in
      (fix join (l : list Value) : Res jsstring :=
         match l with
         | [] => Ok []
         | [w] => item w
         | w :: r =>
             match item w with
             | Ok s => match join r with
                       | Ok t => Ok (s ++ js "," ++ t)
                       | Throw e => Throw e
                       end
             | Throw e => Throw e
             end
         end) items
  | VObj fields =>
      if has_own fields (js "toString") then Throw NotPrimitive
      else Ok (js "[object Object]")
  end.

(** [a || b] *)
Definition or_else (a b : Value) : Value :=
  if truthy a then a else b.

(** [data.name] for the three names the file reads ([session_id],
    [response], [timestamp]; none is on a prototype): a TypeError on
    [null] and [undefined], the own property of an object, [undefined]
    otherwise. *)
Fixpoint own_property (fields : list (jsstring * Value)) (name : jsstring) : Value :=
  match fields with
  | [] => VUndef
  | (k, v) :: r => if bool_decide (k = name) then v else own_property r name
  end.

Definition get_property (data : Value) (name : jsstring) : Res Value :=
  match data with
  | VUndef | VNull => Throw PropertyOfNull
  | VObj fields => Ok (own_property fields name)
  | _ => Ok VUndef
  end.

(** What the [textContent] setter stores: nothing for [null] and
    [undefined], the string form otherwise. *)
Definition text_of (v : Value) : Res jsstring :=
  match v with VUndef | VNull => Ok [] | _ => to_string v end.

(** [formData.append(name, v)]: both arguments become scalar-value
    strings. *)
Definition append (name : jsstring) (v : Value)
    (formData : list (jsstring * jsstring)) : Res (list (jsstring * jsstring)) :=
  match to_string v with
  | Ok s => Ok (formData ++ [(to_usv name, to_usv s)])
  | Throw e => Throw e
  end.

End Values.

(** The external renderer [marked.parse]: [None] when it throws. *)
Class Marked {E : Engine} := marked_parse : Value -> option jsstring.

Section Widget.
Context {E : Engine} {R : Marked}.

(** ** Requests

    How a request ends.  [fetch] resolves for every HTTP status; the body is
    then read by [response.json()]. *)
Inductive Body :=
| Malformed
| Parsed (data : Value).

Inductive Outcome :=
| Rejected
| Resolved (status : N) (body : Body).

(** ** The page *)

Record State := mkState {
  input_value : jsstring;               (* userInput.value *)
  input_height : jsstring;              (* userInput.style.height *)
  send_disabled : bool;                 (* sendButton.disabled *)
  before : list Node;                   (* elements before the children of
                                           #chatMessages, in document order *)
  chat : list Node;                     (* children of #chatMessages *)
  sessionId : Value;                    (* let sessionId *)
  storage : gmap jsstring jsstring;     (* localStorage *)
  sent : list Request;                  (* calls of fetch, oldest first *)
  inflight : nat;                       (* listeners suspended at an await *)
  console : list Exn                    (* console.error *)
}.

Definition set_input_value (v : jsstring) (st : State) : State :=
  mkState v (input_height st) (send_disabled st) (before st) (chat st)
    (sessionId st) (storage st) (sent st) (inflight st) (console st).
Definition set_input_height (h : jsstring) (st : State) : State :=
  mkState (input_value st) h (send_disabled st) (before st) (chat st)
    (sessionId st) (storage st) (sent st) (inflight st) (console st).
Definition set_send_disabled (b : bool) (st : State) : State :=
  mkState (input_value st) (input_height st) b (before st) (chat st)
    (sessionId st) (storage st) (sent st) (inflight st) (console st).
Definition set_before (l : list Node) (st : State) : State :=
  mkState (input_value st) (input_height st) (send_disabled st) l (chat st)
    (sessionId st) (storage st) (sent st) (inflight st) (console st).
Definition set_chat (l : list Node) (st : State) : State :=
  mkState (input_value st) (input_height st) (send_disabled st) (before st) l
    (sessionId st) (storage st) (sent st) (inflight st) (console st).
Definition set_sessionId (v : Value) (st : State) : State :=
  mkState (input_value st) (input_height st) (send_disabled st) (before st)
    (chat st) v (storage st) (sent st) (inflight st) (console st).
Definition set_storage (m : gmap jsstring jsstring) (st : State) : State :=
  mkState (input_value st) (input_height st) (send_disabled st) (before st)
    (chat st) (sessionId st) m (sent st) (inflight st) (console st).
Definition set_sent (l : list Request) (st : State) : State :=
  mkState (input_value st) (input_height st) (send_disabled st) (before st)
    (chat st) (sessionId st) (storage st) l (inflight st) (console st).
Definition set_inflight (n : nat) (st : State) : State :=
  mkState (input_value st) (input_height st) (send_disabled st) (before st)
    (chat st) (sessionId st) (storage st) (sent st) n (console st).
Definition set_console (l : list Exn) (st : State) : State :=
  mkState (input_value st) (input_height st) (send_disabled st) (before st)
    (chat st) (sessionId st) (storage st) (sent st) (inflight st) l.

(** ** Listeners as computations *)

Definition M (A : Type) : Type := State -> Res A * State.

Definition ret {A} (a : A) : M A := fun st => (Ok a, st).
Definition throw {A} (e : Exn) : M A := fun st => (Throw e, st).
Definition bind {A B} (m : M A) (k : A -> M B) : M B :=
  fun st =>
    match m st with
    | (Ok a, st') => k a st'
    | (Throw e, st') => (Throw e, st')
    end.
(** [try { m } catch (error) { h error }] *)
Definition try_catch {A} (m : M A) (h : Exn -> M A) : M A :=
  fun st =>
    match m st with
    | (Ok a, st') => (Ok a, st')
    | (Throw e, st') => h e st'
    end.
Definition gets {A} (f : State -> A) : M A := fun st => (Ok (f st), st).
Definition modify (f : State -> State) : M unit := fun st => (Ok tt, f st).
Definition lift {A} (r : Res A) : M A := fun st => (r, st).

#[global] Instance M_ret : MRet M := @ret.
#[global] Instance M_bind : MBind M := fun A B k m => bind m k.

(** ** The helpers of the file *)

Definition appendChild (n : Node) : M unit :=
  modify (fun st => set_chat (chat st ++ [n]) st).

Definition marked (text : Value) : M jsstring :=
  lift (match marked_parse text with
        | Some markup => Ok markup
        | None => Throw MarkedThrew
        end).

(** [getCurrentTime()], lines 146-153: the local time as the clock formats
    it, [now] at the moment of the call. *)
Definition getCurrentTime (now : jsstring) : Value := VStr now.

(** [scrollToBottom()], lines 156-158: moves the viewport only. *)
Definition scrollToBottom : M unit := mret tt.

(** [addMessage(text, sender, timestamp = null)], lines 77-107. *)
Definition addMessage (now : jsstring) (text : Value) (sender : Sender)
    (timestamp : Value) : M unit :=
  let timestamp := match timestamp with VUndef => VNull | t => t end in
  messageText ← match sender with
                | bot => markup ← marked text;
                         mret (Html markup (parse_html markup))
                | user => s ← lift (text_of text); mret (Text s)
                end;
  messageTime ← lift (text_of (or_else timestamp (getCurrentTime now)));
  appendChild (message_node sender messageText messageTime);;
  scrollToBottom.

(** [showTypingIndicator()], lines 110-135. *)
Definition showTypingIndicator : M unit :=
  appendChild typing_node;;
  scrollToBottom.

(** [removeTypingIndicator()], lines 138-143: the first element of the
    document with the id, wherever it is. *)
Definition removeTypingIndicator : M unit :=
  modify (fun st =>
            match remove_first (before st) with
            | Some l => set_before l st
            | None =>
                match remove_first (chat st) with
                | Some l => set_chat l st
                | None => st
                end
            end).

(** [localStorage.getItem(key)] *)
Definition getItem (key : jsstring) (m : gmap jsstring jsstring) : Value :=
  match m !! key with
  | Some s => VStr s
  | None => VNull
  end.

(** [localStorage.setItem(key, v)] *)
Definition setItem (key : jsstring) (v : Value) : M unit :=
  s ← lift (to_string v);
  modify (fun st => set_storage (<[key := s]> (storage st)) st).

(** The call of [fetch]: the request leaves, the listener is suspended. *)
Definition fetch (r : Request) : M unit :=
  modify (fun st => set_inflight (S (inflight st)) (set_sent (sent st ++ [r]) st)).

(** Newline normalisation of a text area's value. *)
Fixpoint normalize_newlines (s : jsstring) : jsstring :=
  match s with
  | [] => []
  | c :: r =>
      if (c =? 13)%N then
        match r with
        | d :: r' => if (d =? 10)%N then 10%N :: normalize_newlines r'
                     else 10%N :: normalize_newlines r
        | [] => [10%N]
        end
      else c :: normalize_newlines r
  end.

(** [userInput.value = v] from script; [null] is stored as the empty
    string. *)
Definition assign_value (v : Value) : M unit :=
  raw ← lift (match v with VNull => Ok [] | _ => to_string v end);
  modify (set_input_value (normalize_newlines raw)).

(** ** The listeners *)

(** [DOMContentLoaded], lines 1-9 and 173-176: the page as the browser built
    it (text area, the elements before [#chatMessages], its children,
    [localStorage]) and the initial value of [sessionId]. *)
Definition init (value height : jsstring) (outside children : list Node)
    (store : gmap jsstring jsstring) : State :=
  {| input_value := value;
     input_height := height;
     send_disabled := true;
     before := outside;
     chat := children;
     sessionId := or_else (getItem chatSessionId store) VNull;
     storage := store;
     sent := [];
     inflight := 0;
     console := [] |}.

(** The two [input] listeners of the text area, lines 12-15 and 169-171,
    after the user changed its content to [v]; [scrollHeight] is measured
    by the browser. *)
Definition on_input (v : jsstring) (scrollHeight : N) : M unit :=
  modify (set_input_value v);;
  modify (set_input_height (js "auto"));;
  modify (set_input_height (js_of_N (N.min scrollHeight 120) ++ js "px"));;
  modify (set_send_disabled (is_empty (trim v))).

(** The [catch] block, lines 60-64. *)
Definition on_error (now : jsstring) (error : Exn) : M unit :=
  modify (fun st => set_console (console st ++ [error]) st);;
  removeTypingIndicator;;
  addMessage now (VStr apology) bot VUndef.

(** The [try] block up to its first [await], lines 31-44, with the [catch]
    block for what throws in it: the form is filled and [fetch] is
    called. *)
Definition send (message now : jsstring) : M unit :=
  try_catch
    (formData ← lift (append (js "user_input") (VStr message) []);
     sid ← gets sessionId;
     formData ← (if truthy sid then lift (append (js "session_id") sid formData)
                 else mret formData);
     fetch {| req_url := js "/api/chat";
              req_method := js "POST";
              req_body := formData |})
    (on_error now).

(** The [submit] listener up to its first [await], lines 18-44.
    [e.preventDefault()] changes nothing in the page and is left out. *)
Definition submit (now : jsstring) : M unit :=
  message ← gets (fun st => trim (input_value st));
  if is_empty message then mret tt else
  addMessage now (VStr message) user VUndef;;
  assign_value (VStr []);;
  modify (set_input_height (js "auto"));;
  showTypingIndicator;;
  send message now.

(** What the two [await]s of lines 41 and 46 deliver. *)
Definition awaited (o : Outcome) : Res Value :=
  match o with
  | Rejected => Throw FetchRejected
  | Resolved _ Malformed => Throw BodyRejected
  | Resolved _ (Parsed data) => Ok data
  end.

(** The [submit] listener from its first [await] on, lines 41-64. *)
Definition settle (o : Outcome) (now : jsstring) : M unit :=
  try_catch
    (data ← lift (awaited o);
     session_id ← lift (get_property data (js "session_id"));
     (if truthy session_id then
        modify (set_sessionId session_id);;
        sid ← gets sessionId;
        setItem chatSessionId sid
      else mret tt);;
     removeTypingIndicator;;
     response ← lift (get_property data (js "response"));
     timestamp ← lift (get_property data (js "timestamp"));
     addMessage now response bot timestamp)
    (on_error now).

(** The click listener of a quick-question button, lines 69-73;
    [question] is its [data-question] attribute.  The submit listener runs
    inside [dispatchEvent]. *)
Definition on_quick (question : option jsstring) (now : jsstring) : M unit :=
  assign_value (match question with Some q => VStr q | None => VNull end);;
  submit now.

(** The [keydown] listener of the text area, lines 161-166. *)
Definition on_keydown (key : jsstring) (shiftKey : bool) (now : jsstring) : M unit :=
  if bool_decide (key = js "Enter") && negb shiftKey then submit now
  else mret tt.

(** ** The event loop *)

Inductive Event :=
| EInput (v : jsstring) (scrollHeight : N)
| ESubmit (now : jsstring)
| EKeydown (key : jsstring) (shiftKey : bool) (now : jsstring)
| EQuick (question : option jsstring) (now : jsstring)
| ESettle (o : Outcome) (now : jsstring).

(** One turn of the event loop.  A request can only settle while a listener
    is suspended on it. *)
Definition listener (e : Event) : M unit :=
  match e with
  | EInput v h => on_input v h
  | ESubmit now => submit now
  | EKeydown key shiftKey now => on_keydown key shiftKey now
  | EQuick question now => on_quick question now
  | ESettle o now =>
      fun st =>
        match inflight st with
        | O => (Ok tt, st)
        | S n => settle o now (set_inflight n st)
        end
  end.

Definition step (e : Event) (st : State) : State := snd (listener e st).

Definition run (es : list Event) (st : State) : State :=
  fold_left (fun st e => step e st) es st.

End Widget.

(** ** Notions used in the statements *)

(** The string is a scalar-value string already: it has no surrogate
    outside a pair. *)
Definition well_formed (s : jsstring) : Prop := to_usv s = s.

(** What a text area holds after it was given [text], in the words of the
    HTML standard: every CR LF pair becomes LF, then every CR left becomes
    LF. *)
Fixpoint crlf_to_lf (s : jsstring) : jsstring :=
  match s with
  | [] => []
  | c :: r =>
      match r with
      | d :: r' => if ((c =? 13) && (d =? 10))%N then 10%N :: crlf_to_lf r'
                   else c :: crlf_to_lf r
      | [] => [c]
      end
  end.

Definition cr_to_lf (s : jsstring) : jsstring :=
  map (fun c => if (c =? 13)%N then 10%N else c) s.

Definition field_content (text : jsstring) : jsstring :=
  cr_to_lf (crlf_to_lf text).

(** [s] neither begins nor ends with white space. *)
Definition trimmed (s : jsstring) : Prop :=
  match s with c :: _ => is_space c = false | [] => True end
  /\ match rev s with c :: _ => is_space c = false | [] => True end.

(** [formData.get(name)]: the first value appended under [name]. *)
Fixpoint form_get (name : jsstring) (body : list (jsstring * jsstring)) : option jsstring :=
  match body with
  | [] => None
  | (k, v) :: r => if bool_decide (k = name) then Some v else form_get name r
  end.

(** The message a request carries. *)
Definition user_input_of (r : Request) : option jsstring :=
  form_get (js "user_input") (req_body r).

(** The request carries [session_id=tok]. *)
Definition has_session_id (tok : jsstring) (r : Request) : Prop :=
  In (js "session_id", tok) (req_body r).

(** The shape of every request the widget makes: a POST to [/api/chat]
    whose form holds a non-empty, trimmed [user_input], alone or followed by
    one [session_id]. *)
Definition well_formed_request (r : Request) : Prop :=
  req_url r = js "/api/chat"
  /\ req_method r = js "POST"
  /\ exists message,
       message <> [] /\ trimmed message
       /\ (req_body r = [(js "user_input", message)]
           \/ exists tok, req_body r = [(js "user_input", message);
                                        (js "session_id", tok)]).

(** No element of the list, nor any below, carries the id
    [typing-indicator]. *)
Definition no_indicator (l : list Node) : Prop := existsb has_typing l = false.

(** Every element of the list is a typing indicator or holds no element
    with that id. *)
Definition tidy (l : list Node) : Prop :=
  Forall (fun n => is_typing n = true \/ has_typing n = false) l.

Section Notions.
Context {E : Engine} {R : Marked}.

(** The [session_id] entry of the form for the token [sid]: none when the
    token is falsy; a TypeError when it has no string form. *)
Definition session_field (sid : Value) : Res (list (jsstring * jsstring)) :=
  if truthy sid then
    match to_string sid with
    | Ok s => Ok [(js "session_id", to_usv s)]
    | Throw e => Throw e
    end
  else Ok [].

(** The request [submit] makes for the trimmed text [message], with the
    [session_id] entry [fields]. *)
Definition request_of (message : jsstring) (fields : list (jsstring * jsstring)) : Request :=
  {| req_url := js "/api/chat";
     req_method := js "POST";
     req_body := (js "user_input", to_usv message) :: fields |}.

(** What [messageTime] shows for the [timestamp] argument of [addMessage]
    when the clock reads [now]. *)
Definition shown_time (timestamp : Value) (now : jsstring) : Res jsstring :=
  text_of (or_else (match timestamp with VUndef => VNull | t => t end)
             (getCurrentTime now)).

(** The page after lines 24-29: the user bubble and the typing indicator
    are shown, the field is empty. *)
Definition shown (message now : jsstring) (st : State) : State :=
  {| input_value := [];
     input_height := js "auto";
     send_disabled := send_disabled st;
     before := before st;
     chat := chat st ++ [message_node user (Text message) now; typing_node];
     sessionId := sessionId st;
     storage := storage st;
     sent := sent st;
     inflight := inflight st;
     console := console st |}.

(** The page after [removeTypingIndicator()]. *)
Definition without_indicator (st : State) : State :=
  snd (removeTypingIndicator st).

(** The bot bubble for a rendered markup. *)
Definition bot_bubble (markup time : jsstring) : Node :=
  message_node bot (Html markup (parse_html markup)) time.

(** The [catch] block of lines 60-64 in closed form. *)
Definition caught (error : Exn) (now : jsstring) (st : State) : Res unit * State :=
  let st1 := without_indicator (set_console (console st ++ [error]) st) in
  match marked_parse (VStr apology) with
  | Some markup => (Ok tt, set_chat (chat st1 ++ [bot_bubble markup now]) st1)
  | None => (Throw MarkedThrew, st1)
  end.

(** Lines 49-52 in closed form: memory is written first, then storage,
    unless the conversion of the token throws. *)
Definition store_token (session_id : Value) (st : State) : Res unit * State :=
  if truthy session_id then
    match to_string session_id with
    | Ok s => (Ok tt, set_storage (<[chatSessionId := s]> (storage st))
                        (set_sessionId session_id st))
    | Throw e => (Throw e, set_sessionId session_id st)
    end
  else (Ok tt, st).

(** The page after lines 46-52 of a completion: the token of the body has
    been stored, if the body has one. *)
Definition stored (o : Outcome) (st : State) : State :=
  match awaited o with
  | Ok data =>
      match get_property data (js "session_id") with
      | Ok session_id => snd (store_token session_id st)
      | Throw _ => st
      end
  | Throw _ => st
  end.

(** Populating the input with a preset text and invoking [submit], the
    wording of the specification for [quickSubmit]: the content of the field
    becomes the text (as a text area holds it), everything else stays, and
    the form is submitted. *)
Definition populate (presetText : jsstring) (st : State) : State :=
  {| input_value := field_content presetText;
     input_height := input_height st;
     send_disabled := send_disabled st;
     before := before st;
     chat := chat st;
     sessionId := sessionId st;
     storage := storage st;
     sent := sent st;
     inflight := inflight st;
     console := console st |}.

Definition quickSubmit_spec (presetText now : jsstring) (st : State) : Res unit * State :=
  submit now (populate presetText st).

(** The events that carry text of the user: everything but the completion
    of a request. *)
Definition user_event (e : Event) : Prop :=
  match e with
  | ESettle _ _ => False
  | _ => True
  end.

(** The values the completions of a run hand to the renderer at most: the
    apology, and the [response] of every parsed body. *)
Definition response_of (e : Event) : list Value :=
  match e with
  | ESettle (Resolved _ (Parsed data)) _ =>
      match get_property data (js "response") with
      | Ok response => [response]
      | Throw _ => []
      end
  | _ => []
  end.

Definition rendered_sources (es : list Event) : list Value :=
  VStr apology :: concat (map response_of es).

(** The server issues no value other than [tok]: a settled request of [e]
    carries no [session_id] that the listener would store, except [tok]. *)
Definition keeps (tok : jsstring) (e : Event) : Prop :=
  match e with
  | ESettle (Resolved _ (Parsed data)) _ =>
      forall v, get_property data (js "session_id") = Ok v ->
                truthy v = true -> v = VStr tok
  | _ => True
  end.

(** A [session_id] that the listener would store has a string form. *)
Definition convertible_event (e : Event) : Prop :=
  match e with
  | ESettle (Resolved _ (Parsed data)) _ =>
      forall v, get_property data (js "session_id") = Ok v ->
                truthy v = true -> exists s, to_string v = Ok s
  | _ => True
  end.

(** What the renderer makes of the apology carries no element of id
    [typing-indicator]. *)
Definition plain_apology : Prop :=
  forall markup, marked_parse (VStr apology) = Some markup ->
                 no_indicator (parse_html markup).

(** The page shows its typing indicators as children of [#chatMessages]
    and nowhere else, and no more of them than there are requests in
    flight. *)
Definition orderly (st : State) : Prop :=
  no_indicator (before st) /\ tidy (chat st)
  /\ (typing_count (chat st) <= inflight st)%nat.

(** The token has a string form. *)
Definition convertible (v : Value) : Prop := exists s, to_string v = Ok s.

(** What the completion of [e] renders carries no element of id
    [typing-indicator]. *)
Definition plain_event (e : Event) : Prop :=
  forall v markup, In v (response_of e) -> marked_parse v = Some markup ->
                   no_indicator (parse_html markup).

(** Memory and storage hold the same token, or neither holds one. *)
Definition agree (st : State) : Prop :=
  (sessionId st = VNull /\ storage st !! chatSessionId = None)
  \/ exists s, sessionId st = VStr s /\ storage st !! chatSessionId = Some s.

(** Storage holds the string form of the token in memory, when it has one;
    when memory holds no token, storage holds nothing or the empty
    string. *)
Definition mirrored (st : State) : Prop :=
  if truthy (sessionId st)
  then forall s, to_string (sessionId st) = Ok s ->
                 storage st !! chatSessionId = Some s
  else sessionId st = VNull
       /\ (storage st !! chatSessionId = None
           \/ storage st !! chatSessionId = Some []).

(** The page is loaded again: [DOMContentLoaded] runs on a new document
    over the storage the old page left. *)
Definition reload (value height : jsstring) (outside children : list Node)
    (st : State) : State :=
  init value height outside children (storage st).

End Notions.

(** ** A sample engine and renderer

    A concrete engine and renderer to run the listeners on.  Numbers are
    integers.  The renderer wraps a line of text in a paragraph, passes a
    line that begins with a tag through as it is (an HTML block), and throws
    on anything that is not a string, as [marked.parse] does.  The parser
    knows the paragraphs of the renderer and one HTML block, an empty [div]
    with the id [typing-indicator]. *)

Fixpoint strip_prefix (p s : jsstring) : option jsstring :=
  match p, s with
  | [], _ => Some s
  | a :: p', b :: s' => if (a =? b)%N then strip_prefix p' s' else None
  | _ :: _, [] => None
  end.

Definition strip_suffix (p s : jsstring) : option jsstring :=
  option_map (@rev N) (strip_prefix (rev p) (rev s)).

(** [<div id="typing-indicator"></div>] *)
Definition stray_indicator : jsstring :=
  js "<div id=" ++ [34%N] ++ typing_id ++ [34%N] ++ js "></div>".

Definition sample_parser (markup : jsstring) : list Node :=
  if bool_decide (markup = stray_indicator)
  then [Elem (js "div") [] typing_id (Kids [])]
  else match strip_prefix (js "<p>") markup with
       | Some rest =>
           match strip_suffix (js "</p>" ++ [10%N]) rest with
           | Some text => [Elem (js "p") [] [] (Text text)]
           | None => []
           end
       | None => []
       end.

Definition integer_engine : Engine :=
  {| number := Z;
     number_truthy := fun z => negb (z =? 0)%Z;
     number_to_string := fun z => js (NilZero.string_of_int (Z.to_int z));
     parse_html := sample_parser |}.

Definition paragraph_marked : @Marked integer_engine :=
  fun v => match v with
           | VStr (60%N :: r) => Some (60%N :: r)
           | VStr s => Some (js "<p>" ++ s ++ js "</p>" ++ [10%N])
           | _ => None
           end.

(** A renderer that refuses everything. *)
Definition refusing_marked : @Marked integer_engine := fun _ => None.

(** Sample pages and responses, on that engine and renderer. *)
Abbreviation Page := (@State integer_engine).
Abbreviation Json := (@Value integer_engine).

Definition run_sample : list Event -> Page -> Page :=
  @run integer_engine paragraph_marked.

Definition settle_sample (o : Outcome) (now : jsstring) (st : Page) : Res unit * Page :=
  @settle integer_engine paragraph_marked o now st.

Definition submit_sample (now : jsstring) (st : Page) : Res unit * Page :=
  @submit integer_engine paragraph_marked now st.

(** A page just loaded, with nothing in storage. *)
Definition fresh_page : Page := init [] [] [] [] ∅.

(** The user typed [hi], padded with blanks. *)
Definition typed_page : Page :=
  run_sample [EInput (js "  hi ") 24] fresh_page.

(** ... and sent it. *)
Definition asked_page : Page :=
  run_sample [EInput (js "  hi ") 24; ESubmit (js "10:00 AM")] fresh_page.

(** The server answered and opened the session [abc123]. *)
Definition reply_abc123 : Json :=
  VObj [(js "response", VStr (js "hello"));
        (js "session_id", VStr (js "abc123"));
        (js "timestamp", VStr (js "10:00 AM"))].

Definition answered_page : Page :=
  run_sample [ESettle (Resolved 200 (Parsed reply_abc123)) (js "10:01 AM")] asked_page.

(** A second question is on its way. *)
Definition asked_again_page : Page :=
  run_sample [EInput (js "more") 24; ESubmit (js "10:02 AM")] answered_page.

(** The same events in one run. *)
Definition two_questions : list Event :=
  [EInput (js "  hi ") 24; ESubmit (js "10:00 AM");
   ESettle (Resolved 200 (Parsed reply_abc123)) (js "10:01 AM");
   EInput (js "more") 24; ESubmit (js "10:02 AM")].

(** Responses used below. *)
Definition reply_plain : Json :=
  VObj [(js "response", VStr (js "again"))].

Definition reply_empty_session : Json :=
  VObj [(js "response", VStr (js "again")); (js "session_id", VStr [])].


Definition reply_session_only : Json :=
  VObj [(js "session_id", VStr (js "zzz"))].

(** A [session_id] that is an unpaired surrogate, ["\ud800"]. *)
Definition reply_lone_surrogate : Json :=
  VObj [(js "response", VStr (js "x")); (js "session_id", VStr [55296%N])].

(** A [session_id] that is the empty array, [[]]. *)
Definition reply_empty_array : Json :=
  VObj [(js "response", VStr (js "x")); (js "session_id", VArr [])].

(** A [session_id] that has no string form, [{"toString": 1}]. *)
Definition reply_object_session : Json :=
  VObj [(js "response", VStr (js "x"));
        (js "session_id", VObj [(js "toString", @VNum integer_engine 1%Z)])].

(** A response whose text is an HTML block with the id of the indicator. *)
Definition reply_stray_indicator : Json :=
  VObj [(js "response", VStr stray_indicator)].

(** The pages after the responses studied below. *)
Definition after_empty_session : Page :=
  snd (settle_sample (Resolved 200 (Parsed reply_empty_session)) (js "10:01 AM") asked_page).

Definition after_http_500 : Page :=
  snd (settle_sample (Resolved 500 (Parsed reply_plain)) (js "10:01 AM") asked_page).


(** The server issued an unpaired surrogate as token; a second question is
    on its way. *)
Definition surrogate_page : Page :=
  run_sample [EInput (js "hi") 24; ESubmit (js "10:00 AM");
              ESettle (Resolved 200 (Parsed reply_lone_surrogate)) (js "10:01 AM");
              EInput (js "more") 24; ESubmit (js "10:02 AM")] fresh_page.

(** ... its response has no [session_id], and a third question is sent. *)
Definition surrogate_next_page : Page :=
  run_sample [ESettle (Resolved 200 (Parsed reply_plain)) (js "10:03 AM");
              EInput (js "again") 24; ESubmit (js "10:04 AM")] surrogate_page.

(** The server issued the empty array as token; a second question is sent. *)
Definition empty_array_page : Page :=
  run_sample [EInput (js "hi") 24; ESubmit (js "10:00 AM");
              ESettle (Resolved 200 (Parsed reply_empty_array)) (js "10:01 AM");
              EInput (js "more") 24; ESubmit (js "10:02 AM")] fresh_page.

(** The server issued a token that has no string form. *)
Definition object_token_page : Page :=
  run_sample [EInput (js "hi") 24; ESubmit (js "10:00 AM");
              ESettle (Resolved 200 (Parsed reply_object_session)) (js "10:01 AM")]
    fresh_page.

(** ... and a second question is typed and sent. *)
Definition object_token_next_page : Page :=
  run_sample [EInput (js "more") 24; ESubmit (js "10:02 AM")] object_token_page.

(** An earlier reply left an element with the id of the indicator in the
    conversation, and a second question is on its way. *)
Definition stray_page : Page :=
  run_sample [EInput (js "hi") 24; ESubmit (js "10:00 AM");
              ESettle (Resolved 200 (Parsed reply_stray_indicator)) (js "10:01 AM");
              EInput (js "more") 24; ESubmit (js "10:02 AM")] fresh_page.

(** The bubble of that reply, before and after the element was taken out. *)
Definition stray_bubble : Node :=
  message_node bot
    (Html stray_indicator [Elem (js "div") [] typing_id (Kids [])]) (js "10:01 AM").

Definition emptied_bubble : Node :=
  message_node bot (Html stray_indicator []) (js "10:01 AM").

(** A page loaded while storage holds the empty string under the key. *)
Definition page_with_empty_entry : Page :=
  init [] [] [] [] {[ chatSessionId := [] ]}.

(** A page whose storage holds a key of another script. *)
Definition page_with_theme : Page :=
  init [] [] [] [] {[ js "theme" := js "dark" ]}.

(** What the sample renderer makes of the apology. *)
Definition apology_markup : jsstring :=
  js "<p>" ++ apology ++ js "</p>" ++ [10%N].

(** ** Facts about strings *)

Lemma trimStart_nil (s : jsstring) :
  trimStart s = [] <-> forallb is_space s = true.
Proof.
  induction s as [|c r IH]; simpl.
  - tauto.
  - destruct (is_space c); simpl.
    + exact IH.
    + split; discriminate.
Qed.

Lemma forallb_is_space_rev (s : jsstring) :
  forallb is_space (rev s) = forallb is_space s.
Proof.
  induction s as [|c r IH]; simpl.
  - reflexivity.
  - rewrite forallb_app, IH. simpl. rewrite andb_true_r. apply andb_comm.
Qed.

Lemma trimStart_idem (s : jsstring) :
  trimStart (trimStart s) = trimStart s.
Proof.
  induction s as [|c r IH]; simpl.
  - reflexivity.
  - destruct (is_space c) eqn:E.
    + exact IH.
    + simpl. now rewrite E.
Qed.

(** [s.trim()] is empty exactly when [s] is empty or all white space. *)
Lemma trim_nil (s : jsstring) :
  trim s = [] <-> forallb is_space s = true.
Proof.
  unfold trim, trimEnd. split.
  - intros H. apply (f_equal (@rev N)) in H. rewrite rev_involutive in H.
    simpl in H. apply trimStart_nil in H.
    rewrite forallb_is_space_rev in H. apply trimStart_nil in H.
    rewrite trimStart_idem in H. now apply trimStart_nil.
  - intros H. apply trimStart_nil in H. now rewrite H.
Qed.

(** What [trimStart] cuts off is white space, and what is left does not
    begin with white space. *)
Lemma trimStart_spec (s : jsstring) :
  exists pre, s = pre ++ trimStart s /\ forallb is_space pre = true /\
              match trimStart s with c :: _ => is_space c = false | [] => True end.
Proof.
  induction s as [|c r (pre & E & Hpre & Hhd)]; simpl.
  - exists []. auto.
  - destruct (is_space c) eqn:Ec.
    + exists (c :: pre). simpl. rewrite Ec, Hpre. split; [congruence | auto].
    + exists []. simpl. auto.
Qed.

(** [s.trim()] is [s] without a run of white space at each end. *)
Lemma trim_spec (s : jsstring) :
  exists pre post,
    s = pre ++ trim s ++ post /\
    forallb is_space pre = true /\ forallb is_space post = true.
Proof.
  destruct (trimStart_spec s) as (pre & E & Hpre & _).
  destruct (trimStart_spec (rev (trimStart s))) as (q & Eq & Hq & _).
  exists pre, (rev q). unfold trim, trimEnd. split; [|split].
  - rewrite <- rev_app_distr, <- Eq, rev_involutive. exact E.
  - exact Hpre.
  - now rewrite forallb_is_space_rev.
Qed.

Lemma trimStart_head (s : jsstring) :
  match trimStart s with c :: _ => is_space c = false | [] => True end.
Proof. destruct (trimStart_spec s) as (_ & _ & _ & H). exact H. Qed.

(** [s.trim()] neither begins nor ends with white space. *)
Lemma trim_ends (s : jsstring) :
  match trim s with c :: _ => is_space c = false | [] => True end
  /\ match rev (trim s) with c :: _ => is_space c = false | [] => True end.
Proof.
  unfold trim, trimEnd. rewrite rev_involutive. split; [|apply trimStart_head].
  destruct (trimStart_spec (rev (trimStart s))) as (q & Eq & Hq & _).
  pose proof (trimStart_head s) as Hu.
  apply (f_equal (@rev N)) in Eq. rewrite rev_involutive, rev_app_distr in Eq.
  rewrite Eq in Hu.
  destruct (rev (trimStart (rev (trimStart s)))) as [|c r]; [exact I | exact Hu].
Qed.

Lemma trimmed_trim (s : jsstring) : trimmed (trim s).
Proof. apply trim_ends. Qed.

(** Surrogates and the replacement character are no white space. *)
Lemma is_high_not_space (c : N) : is_high c = true -> is_space c = false.
Proof.
  unfold is_high, is_space. intros H.
  apply andb_true_iff in H as [H1 H2].
  apply N.leb_le in H1. apply N.leb_le in H2.
  assert (Hle : forall k, (k < 55296)%N -> (c <=? k)%N = false)
    by (intros k Hk; apply N.leb_gt; lia).
  assert (Heq : forall k, (k < 55296)%N -> (c =? k)%N = false)
    by (intros k Hk; apply N.eqb_neq; lia).
  assert (Hbom : (c =? 65279)%N = false) by (apply N.eqb_neq; lia).
  rewrite Hbom, !Hle, !Heq by reflexivity.
  now rewrite !andb_false_r.
Qed.

(** The conversion to a scalar-value string keeps the empty string, and
    only it, empty. *)
Lemma to_usv_nil (s : jsstring) : to_usv s = [] <-> s = [].
Proof.
  split; [|intros ->; reflexivity].
  destruct s as [|c r]; [reflexivity|]. simpl.
  destruct (is_high c); [destruct r as [|d r']; [|destruct (is_low d)]|
                         destruct (is_low c)]; discriminate.
Qed.

Lemma to_usv_head (s : jsstring) :
  match s with c :: _ => is_space c = false | [] => True end ->
  match to_usv s with c :: _ => is_space c = false | [] => True end.
Proof.
  destruct s as [|c r]; [auto|]. simpl. intros Hc.
  destruct (is_high c); [destruct r as [|d r']; [|destruct (is_low d)]|
                         destruct (is_low c)]; auto.
Qed.

Lemma to_usv_snoc (n : nat) :
  forall (l : jsstring) (c : N), (length l <= n)%nat ->
    exists l' x, to_usv (l ++ [c]) = l' ++ [x] /\ (x = c \/ x = 65533%N).
Proof.
  induction n as [|n IH]; intros l c Hl.
  - destruct l; [|simpl in Hl; lia]. simpl.
    destruct (is_high c); [|destruct (is_low c)];
      exists []; eexists; (split; [reflexivity|]); auto.
  - destruct l as [|a l1].
    + apply (IH [] c). simpl. lia.
    + simpl in Hl. cbn [app to_usv].
      assert (Hrest : exists l' x, to_usv (l1 ++ [c]) = l' ++ [x]
                                   /\ (x = c \/ x = 65533%N))
        by (apply IH; lia).
      destruct Hrest as (l' & x & Hr & Hx).
      destruct (is_high a).
      * destruct l1 as [|d l2]; cbn [app].
        -- destruct (is_low c).
           ++ exists [a], c. auto.
           ++ exists (65533%N :: l'), x. cbn [app] in Hr. rewrite Hr. auto.
        -- destruct (is_low d).
           ++ destruct (IH l2 c) as (l'' & y & Hr2 & Hy); [simpl in Hl; lia|].
              exists (a :: d :: l''), y. rewrite Hr2. auto.
           ++ exists (65533%N :: l'), x. cbn [app] in Hr. rewrite Hr. auto.
      * destruct (is_low a).
        -- exists (65533%N :: l'), x. rewrite Hr. auto.
        -- exists (a :: l'), x. rewrite Hr. auto.
Qed.

(** The conversion keeps a trimmed string trimmed. *)
Lemma to_usv_trimmed (s : jsstring) : trimmed s -> trimmed (to_usv s).
Proof.
  intros [Hh Hl]. split; [now apply to_usv_head|].
  destruct (rev s) as [|c r] eqn:Er.
  - apply (f_equal (@rev N)) in Er. rewrite rev_involutive in Er. subst s. exact I.
  - apply (f_equal (@rev N)) in Er. rewrite rev_involutive in Er. cbn [rev] in Er.
    destruct (to_usv_snoc (length (rev r)) (rev r) c (le_n _)) as (l' & x & Hu & Hx).
    rewrite Er, Hu, rev_app_distr. cbn [rev app].
    destruct Hx as [->| ->]; [exact Hl | reflexivity].
Qed.

(** Newline normalisation, as the setter applies it in one pass, is the
    two-step replacement of the standard. *)
Lemma normalize_newlines_spec_aux (n : nat) :
  forall s : jsstring, (length s <= n)%nat -> normalize_newlines s = field_content s.
Proof.
  unfold field_content.
  induction n as [|n IH]; intros s Hs.
  - destruct s; [reflexivity | simpl in Hs; lia].
  - destruct s as [|c r]; [reflexivity|]. simpl in Hs.
    cbn [normalize_newlines crlf_to_lf].
    destruct r as [|d r'].
    + cbn [cr_to_lf map]. destruct (c =? 13)%N; reflexivity.
    + simpl in Hs. destruct (c =? 13)%N eqn:Ec; cbn [andb].
      * destruct (d =? 10)%N eqn:Ed.
        -- cbn [cr_to_lf map]. change (10 =? 13)%N with false. cbn iota.
           f_equal. apply IH. lia.
        -- cbn [cr_to_lf map]. rewrite Ec. f_equal.
           apply (IH (d :: r')). simpl. lia.
      * cbn [cr_to_lf map]. rewrite Ec. f_equal.
        apply (IH (d :: r')). simpl. lia.
Qed.

Lemma normalize_newlines_spec (s : jsstring) :
  normalize_newlines s = field_content s.
Proof. apply (normalize_newlines_spec_aux (length s)). lia. Qed.

(** ** Facts about the document *)

(** Induction on an element with the property known for the elements
    directly below. *)
Lemma Node_deep_ind (P : Node -> Prop) :
  (forall t c i content, Forall P (kids_of content) -> P (Elem t c i content)) ->
  forall n, P n.
Proof.
  intros H. fix IH 1. intros [t c i content]. apply H.
  destruct content as [l|s|m l]; simpl; [|constructor|].
  - induction l as [|k r IHl]; constructor; [apply IH | exact IHl].
  - induction l as [|k r IHl]; constructor; [apply IH | exact IHl].
Qed.

Lemma remove_in_unfold (t c i : jsstring) (content : Content) :
  remove_in (Elem t c i content)
  = match content with
    | Kids l => option_map (fun l' => Elem t c i (Kids l')) (remove_first l)
    | Text _ => None
    | Html m l => option_map (fun l' => Elem t c i (Html m l')) (remove_first l)
    end.
Proof. destruct content; reflexivity. Qed.

Lemma purge_unfold (t c i : jsstring) (content : Content) :
  purge (Elem t c i content)
  = Elem t c i match content with
               | Kids l => Kids (purge_forest l)
               | Text s => Text s
               | Html m l => Html m (purge_forest l)
               end.
Proof. destruct content; reflexivity. Qed.

Lemma has_typing_unfold (t c i : jsstring) (content : Content) :
  has_typing (Elem t c i content)
  = is_typing (Elem t c i content) || existsb has_typing (kids_of content).
Proof. destruct content; reflexivity. Qed.

Lemma remove_in_id (n n' : Node) :
  remove_in n = Some n' -> is_typing n' = is_typing n.
Proof.
  destruct n as [t c i content]. rewrite remove_in_unfold.
  destruct content as [l|s|m l]; [|discriminate|];
    destruct (remove_first l); simpl; intros H; inversion H; reflexivity.
Qed.

(** Removing the first element of the id changes nothing of what is left
    when all of them are left out. *)
Lemma remove_in_purge (n : Node) :
  forall n', remove_in n = Some n' -> purge n' = purge n.
Proof.
  induction n as [t c i content IH] using Node_deep_ind.
  assert (Hforest : forall l, Forall (fun k => forall k', remove_in k = Some k' ->
                                                    purge k' = purge k) l ->
                    forall l', remove_first l = Some l' ->
                               purge_forest l' = purge_forest l).
  { clear. induction l as [|k r IHl]; intros HF l' Hl'; [discriminate|].
    inversion HF as [|? ? Hk Hr]; subst. cbn [remove_first] in Hl'.
    destruct (is_typing k) eqn:Ek.
    - inversion Hl'; subst. cbn [purge_forest]. now rewrite Ek.
    - destruct (remove_in k) as [k'|] eqn:Erk.
      + inversion Hl'; subst. cbn [purge_forest].
        rewrite (remove_in_id k k' Erk), Ek. now rewrite (Hk k' eq_refl).
      + destruct (remove_first r) as [r'|] eqn:Err; [|discriminate].
        inversion Hl'; subst. cbn [purge_forest]. rewrite Ek.
        now rewrite (IHl Hr r' eq_refl). }
  intros n'. rewrite remove_in_unfold.
  destruct content as [l|s|m l]; [|discriminate|]; cbn [kids_of] in IH;
    destruct (remove_first l) as [l'|] eqn:El; simpl; intros H; inversion H;
    rewrite !purge_unfold; now rewrite (Hforest l IH l' El).
Qed.

Lemma remove_first_purge (l l' : list Node) :
  remove_first l = Some l' -> purge_forest l' = purge_forest l.
Proof.
  revert l'. induction l as [|k r IHl]; intros l' Hl'; [discriminate|].
  cbn [remove_first] in Hl'. destruct (is_typing k) eqn:Ek.
  - inversion Hl'; subst. cbn [purge_forest]. now rewrite Ek.
  - destruct (remove_in k) as [k'|] eqn:Erk.
    + inversion Hl'; subst. cbn [purge_forest].
      rewrite (remove_in_id k k' Erk), Ek. now rewrite (remove_in_purge k k' Erk).
    + destruct (remove_first r) as [r'|] eqn:Err; [|discriminate].
      inversion Hl'; subst. cbn [purge_forest]. rewrite Ek.
      now rewrite (IHl r' eq_refl).
Qed.

(** Where nothing carries the id, nothing is removed and nothing is left
    out. *)
Lemma remove_in_none (n : Node) : has_typing n = false -> remove_in n = None.
Proof.
  induction n as [t c i content IH] using Node_deep_ind.
  assert (Hforest : forall l, Forall (fun k => has_typing k = false ->
                                               remove_in k = None) l ->
                    existsb has_typing l = false -> remove_first l = None).
  { clear. induction l as [|k r IHl]; intros HF Hl; [reflexivity|].
    inversion HF as [|? ? Hk Hr]; subst. cbn [existsb] in Hl.
    apply orb_false_iff in Hl as [Hk' Hr'].
    cbn [remove_first].
    assert (Ek : is_typing k = false).
    { destruct k as [t c i content]. rewrite has_typing_unfold in Hk'.
      now apply orb_false_iff in Hk' as [? _]. }
    now rewrite Ek, (Hk Hk'), (IHl Hr Hr'). }
  rewrite has_typing_unfold, remove_in_unfold. intros H.
  apply orb_false_iff in H as [_ H].
  destruct content as [l|s|m l]; [|reflexivity|]; cbn [kids_of] in *;
    now rewrite (Hforest l IH H).
Qed.

Lemma has_typing_top (k : Node) : has_typing k = false -> is_typing k = false.
Proof.
  destruct k as [t c i content]. rewrite has_typing_unfold.
  intros H. now apply orb_false_iff in H as [? _].
Qed.

Lemma remove_first_none (l : list Node) :
  no_indicator l -> remove_first l = None.
Proof.
  unfold no_indicator. induction l as [|k r IHl]; intros Hl; [reflexivity|].
  cbn [existsb] in Hl. apply orb_false_iff in Hl as [Hk Hr].
  cbn [remove_first].
  now rewrite (has_typing_top k Hk), (remove_in_none k Hk), (IHl Hr).
Qed.

Lemma purge_none (n : Node) : has_typing n = false -> purge n = n.
Proof.
  induction n as [t c i content IH] using Node_deep_ind.
  assert (Hforest : forall l, Forall (fun k => has_typing k = false -> purge k = k) l ->
                    existsb has_typing l = false -> purge_forest l = l).
  { clear. induction l as [|k r IHl]; intros HF Hl; [reflexivity|].
    inversion HF as [|? ? Hk Hr]; subst. cbn [existsb] in Hl.
    apply orb_false_iff in Hl as [Hk' Hr']. cbn [purge_forest].
    now rewrite (has_typing_top k Hk'), (Hk Hk'), (IHl Hr Hr'). }
  rewrite has_typing_unfold, purge_unfold. intros H.
  apply orb_false_iff in H as [_ H].
  destruct content as [l|s|m l]; [|reflexivity|]; cbn [kids_of] in *;
    now rewrite (Hforest l IH H).
Qed.

Lemma purge_forest_none (l : list Node) :
  no_indicator l -> purge_forest l = l.
Proof.
  unfold no_indicator. induction l as [|k r IHl]; intros Hl; [reflexivity|].
  cbn [existsb] in Hl. apply orb_false_iff in Hl as [Hk Hr].
  cbn [purge_forest].
  now rewrite (has_typing_top k Hk), (purge_none k Hk), (IHl Hr).
Qed.

Lemma no_indicator_app (l1 l2 : list Node) :
  no_indicator (l1 ++ l2) <-> no_indicator l1 /\ no_indicator l2.
Proof. unfold no_indicator. rewrite existsb_app. apply orb_false_iff. Qed.

(** The first element of the id, when it is a child and nothing before it
    carries the id, is the one removed. *)
Lemma remove_first_found (pre post : list Node) (n : Node) :
  no_indicator pre -> is_typing n = true ->
  remove_first (pre ++ n :: post) = Some (pre ++ post).
Proof.
  unfold no_indicator. intros Hpre Hn.
  induction pre as [|k r IHl]; cbn [app remove_first].
  - now rewrite Hn.
  - cbn [existsb] in Hpre. apply orb_false_iff in Hpre as [Hk Hr].
    now rewrite (has_typing_top k Hk), (remove_in_none k Hk), (IHl Hr).
Qed.

Lemma purge_forest_app (l1 l2 : list Node) :
  purge_forest (l1 ++ l2) = purge_forest l1 ++ purge_forest l2.
Proof.
  induction l1 as [|k r IH]; [reflexivity|]. cbn [app purge_forest].
  destruct (is_typing k); [exact IH | now rewrite IH].
Qed.

Lemma bubbles_app (l1 l2 : list Node) :
  bubbles (l1 ++ l2) = bubbles l1 ++ bubbles l2.
Proof. apply purge_forest_app. Qed.

Lemma user_texts_app (l1 l2 : list Node) :
  user_texts (l1 ++ l2) = user_texts l1 ++ user_texts l2.
Proof. unfold user_texts. now rewrite bubbles_app, omap_app. Qed.

Lemma typing_count_app (l1 l2 : list Node) :
  typing_count (l1 ++ l2) = (typing_count l1 + typing_count l2)%nat.
Proof.
  induction l1 as [|n r IH]; simpl; [reflexivity|].
  destruct (is_typing n); simpl; now rewrite IH.
Qed.

Lemma node_markups_kids (t c i : jsstring) (l : list Node) :
  node_markups (Elem t c i (Kids l)) = markups l.
Proof.
  unfold markups. induction l as [|k r IH]; [reflexivity|].
  cbn [map concat]. rewrite <- IH. reflexivity.
Qed.

(** A removal takes no markup in: what was assigned to [innerHTML] below
    the list afterwards was there before. *)
Lemma remove_in_markups (n : Node) :
  forall n', remove_in n = Some n' -> incl (node_markups n') (node_markups n).
Proof.
  induction n as [t c i content IH] using Node_deep_ind.
  assert (Hforest : forall l, Forall (fun k => forall k', remove_in k = Some k' ->
                                  incl (node_markups k') (node_markups k)) l ->
                    forall l', remove_first l = Some l' ->
                               incl (markups l') (markups l)).
  { clear. induction l as [|k r IHl]; intros HF l' El; [discriminate|].
    inversion HF as [|? ? Hk Hr]; subst. cbn [remove_first] in El.
    unfold markups. cbn [map concat].
    destruct (is_typing k).
    - inversion El; subst. apply incl_appr, incl_refl.
    - destruct (remove_in k) as [k'|] eqn:Erk.
      + inversion El; subst. cbn [map concat].
        apply incl_app; [apply incl_appl, (Hk k' eq_refl) | apply incl_appr, incl_refl].
      + destruct (remove_first r) as [r'|] eqn:Err; [|discriminate].
        inversion El; subst. cbn [map concat].
        apply incl_app; [apply incl_appl, incl_refl|].
        apply incl_appr, (IHl Hr r' eq_refl). }
  intros n'. rewrite remove_in_unfold.
  destruct content as [l|s|m l]; [|discriminate|]; cbn [kids_of] in IH;
    destruct (remove_first l) as [l'|] eqn:El; cbn [option_map]; intros H;
    try discriminate; injection H as <-.
  - rewrite !node_markups_kids. now apply Hforest.
  - apply incl_refl.
Qed.

Lemma remove_first_markups (l l' : list Node) :
  remove_first l = Some l' -> incl (markups l') (markups l).
Proof.
  revert l'. induction l as [|k r IHl]; intros l' El; [discriminate|].
  cbn [remove_first] in El. unfold markups. cbn [map concat].
  destruct (is_typing k).
  - inversion El; subst. apply incl_appr, incl_refl.
  - destruct (remove_in k) as [k'|] eqn:Erk.
    + inversion El; subst. cbn [map concat].
      apply incl_app; [apply incl_appl, (remove_in_markups k k' Erk)
                      | apply incl_appr, incl_refl].
    + destruct (remove_first r) as [r'|] eqn:Err; [|discriminate].
      inversion El; subst. cbn [map concat].
      apply incl_app; [apply incl_appl, incl_refl|].
      apply incl_appr, (IHl r' eq_refl).
Qed.

Lemma markups_app (l1 l2 : list Node) :
  markups (l1 ++ l2) = markups l1 ++ markups l2.
Proof. unfold markups. now rewrite map_app, concat_app. Qed.

(** Facts about the two elements the widget builds. *)
Lemma is_typing_message_node (s : Sender) (body : Content) (time : jsstring) :
  is_typing (message_node s body time) = false.
Proof. reflexivity. Qed.

Lemma is_typing_typing_node : is_typing typing_node = true.
Proof. reflexivity. Qed.

Lemma purge_user_bubble (t time : jsstring) :
  purge (message_node user (Text t) time) = message_node user (Text t) time.
Proof. reflexivity. Qed.

Lemma bubbles_submitted (t time : jsstring) :
  bubbles [message_node user (Text t) time; typing_node]
  = [message_node user (Text t) time].
Proof. reflexivity. Qed.

Lemma user_text_message_node (t time : jsstring) :
  user_text (message_node user (Text t) time) = Some t.
Proof. reflexivity. Qed.

Lemma user_text_bot (body : Content) (time : jsstring) :
  user_text (message_node bot body time) = None.
Proof. simpl. destruct body as [[|? [|? [|? ?]]]| |]; reflexivity. Qed.

Lemma user_text_purged_bot (body : Content) (time : jsstring) :
  user_text (purge (message_node bot body time)) = None.
Proof.
  unfold message_node, div. rewrite purge_unfold. cbn [purge_forest].
  change (is_typing (Elem (js "div") (js "message-avatar") [] (Text (avatar bot))))
    with false.
  change (is_typing (Elem (js "div") (js "message-content") []
                       (Kids [Elem (js "div") (js "message-text") [] body;
                              Elem (js "div") (js "message-time") [] (Text time)])))
    with false.
  cbn iota. rewrite !purge_unfold. cbn [purge_forest].
  change (is_typing (Elem (js "div") (js "message-text") [] body)) with false.
  change (is_typing (Elem (js "div") (js "message-time") [] (Text time))) with false.
  cbn iota. rewrite !purge_unfold.
  destruct body as [l|s|m l]; reflexivity.
Qed.

Lemma user_texts_bot (body : Content) (time : jsstring) :
  user_texts [message_node bot body time] = [].
Proof.
  unfold user_texts, bubbles. cbn [purge_forest].
  rewrite is_typing_message_node. cbn [omap list_omap].
  change (omap user_text [purge (message_node bot body time)])
    with (match user_text (purge (message_node bot body time)) with
          | Some t => [t]
          | None => []
          end).
  now rewrite user_text_purged_bot.
Qed.

Lemma typing_count_submitted (s : Sender) (body : Content) (time : jsstring) :
  typing_count [message_node s body time; typing_node] = 1%nat.
Proof. reflexivity. Qed.

Lemma typing_count_bot (body : Content) (time : jsstring) :
  typing_count [message_node bot body time] = O.
Proof. reflexivity. Qed.

(** ** Properties of the listeners *)

Section Properties.
Context {E : Engine} {R : Marked}.

Ltac run_monad :=
  unfold mbind, mret, M_bind, M_ret, bind, ret, try_catch, lift, gets, modify.

(** *** Closed forms *)

Lemma shown_time_default (now : jsstring) : shown_time VUndef now = Ok now.
Proof. reflexivity. Qed.

Lemma addMessage_user (now t : jsstring) (timestamp : Value) (st : State) :
  addMessage now (VStr t) user timestamp st =
  match shown_time timestamp now with
  | Ok time => (Ok tt, set_chat (chat st ++ [message_node user (Text t) time]) st)
  | Throw e => (Throw e, st)
  end.
Proof.
  unfold addMessage, appendChild, scrollToBottom, shown_time. run_monad.
  cbn [text_of to_string].
  destruct (text_of _); reflexivity.
Qed.

Lemma addMessage_bot (now : jsstring) (text timestamp : Value) (st : State) :
  addMessage now text bot timestamp st =
  match marked_parse text with
  | Some markup =>
      match shown_time timestamp now with
      | Ok time => (Ok tt, set_chat (chat st ++ [bot_bubble markup time]) st)
      | Throw e => (Throw e, st)
      end
  | None => (Throw MarkedThrew, st)
  end.
Proof.
  unfold addMessage, marked, appendChild, scrollToBottom, shown_time. run_monad.
  destruct (marked_parse text); [|reflexivity].
  destruct (text_of _); reflexivity.
Qed.

Lemma on_error_unfold (now : jsstring) (error : Exn) (st : State) :
  on_error now error st = caught error now st.
Proof.
  unfold on_error, caught, without_indicator.
  unfold mbind at 1 2, M_bind at 1 2, bind at 1 2, modify at 1.
  destruct (removeTypingIndicator (set_console (console st ++ [error]) st))
    as [[[]|e] st1] eqn:Er; unfold removeTypingIndicator, modify in Er;
    inversion Er; subst; clear Er.
  cbn [snd]. rewrite addMessage_bot, shown_time_default. reflexivity.
Qed.

Lemma send_unfold (message now : jsstring) (st : State) :
  send message now st =
  match session_field (sessionId st) with
  | Ok fields =>
      (Ok tt, set_inflight (S (inflight st))
                (set_sent (sent st ++ [request_of message fields]) st))
  | Throw e => caught e now st
  end.
Proof.
  unfold send, try_catch, session_field, fetch, append. run_monad.
  cbn [to_string].
  destruct (truthy (sessionId st)); [|reflexivity].
  destruct (to_string (sessionId st)) as [s|e]; [reflexivity|].
  apply on_error_unfold.
Qed.

(** [submit] in closed form. *)
Lemma submit_unfold (now : jsstring) (st : State) :
  submit now st =
  let message := trim (input_value st) in
  if is_empty message then (Ok tt, st)
  else send message now (shown message now st).
Proof.
  unfold submit. unfold mbind at 1, M_bind at 1, bind at 1, gets at 1.
  cbn zeta. destruct (trim (input_value st)) as [|c r] eqn:Et; [reflexivity|].
  cbn [is_empty].
  unfold mbind at 1, M_bind at 1, bind at 1. rewrite addMessage_user, shown_time_default.
  unfold assign_value, showTypingIndicator, appendChild, scrollToBottom.
  run_monad. cbn [to_string]. cbn [normalize_newlines].
  unfold shown, set_chat, set_input_value, set_input_height. cbn.
  rewrite <- app_assoc. reflexivity.
Qed.

Lemma get_property_total (data : Value) (name name' : jsstring) (v : Value) :
  get_property data name = Ok v -> exists w, get_property data name' = Ok w.
Proof. destruct data; simpl; intros H; try discriminate; eauto. Qed.

(** [settle] in closed form. *)
Lemma settle_unfold (o : Outcome) (now : jsstring) (st : State) :
  settle o now st =
  match awaited o with
  | Throw e => caught e now st
  | Ok data =>
      match get_property data (js "session_id") with
      | Throw e => caught e now st
      | Ok session_id =>
          match store_token session_id st with
          | (Throw e, st1) => caught e now st1
          | (Ok _, st1) =>
              let st2 := without_indicator st1 in
              match get_property data (js "response") with
              | Throw e => caught e now st2
              | Ok response =>
                  match get_property data (js "timestamp") with
                  | Throw e => caught e now st2
                  | Ok timestamp =>
                      match marked_parse response with
                      | None => caught MarkedThrew now st2
                      | Some markup =>
                          match shown_time timestamp now with
                          | Throw e => caught e now st2
                          | Ok time =>
                              (Ok tt, set_chat (chat st2 ++ [bot_bubble markup time]) st2)
                          end
                      end
                  end
              end
          end
      end
  end.
Proof.
  unfold settle, try_catch. unfold mbind at 1, M_bind at 1, bind at 1, lift at 1.
  destruct (awaited o) as [data|e]; [|apply on_error_unfold].
  unfold mbind at 1, M_bind at 1, bind at 1, lift at 1.
  destruct (get_property data (js "session_id")) as [sid|e] eqn:Esid;
    [|apply on_error_unfold].
  destruct (get_property_total data _ (js "response") _ Esid) as [r Hr].
  destruct (get_property_total data _ (js "timestamp") _ Esid) as [t Ht].
  rewrite Hr, Ht. unfold store_token, setItem, without_indicator.
  unfold mbind at 1, M_bind at 1, bind at 1.
  destruct (truthy sid).
  - run_monad. cbn [sessionId set_sessionId].
    destruct (to_string sid) as [s|e]; [|apply on_error_unfold].
    destruct (removeTypingIndicator _) as [[[]|e] st2] eqn:Er;
      unfold removeTypingIndicator, modify in Er; inversion Er; subst; clear Er.
    cbn [snd]. rewrite addMessage_bot.
    destruct (marked_parse r); [|apply on_error_unfold].
    destruct (shown_time t now); [reflexivity | apply on_error_unfold].
  - run_monad.
    destruct (removeTypingIndicator _) as [[[]|e] st2] eqn:Er;
      unfold removeTypingIndicator, modify in Er; inversion Er; subst; clear Er.
    cbn [snd]. rewrite addMessage_bot.
    destruct (marked_parse r); [|apply on_error_unfold].
    destruct (shown_time t now); [reflexivity | apply on_error_unfold].
Qed.

(** *** What [removeTypingIndicator] leaves alone *)

Lemma without_indicator_frame (st : State) :
  input_value (without_indicator st) = input_value st
  /\ input_height (without_indicator st) = input_height st
  /\ send_disabled (without_indicator st) = send_disabled st
  /\ sessionId (without_indicator st) = sessionId st
  /\ storage (without_indicator st) = storage st
  /\ sent (without_indicator st) = sent st
  /\ inflight (without_indicator st) = inflight st
  /\ console (without_indicator st) = console st.
Proof.
  unfold without_indicator, removeTypingIndicator, modify. cbn [snd].
  destruct (remove_first (before st)); [repeat split|].
  destruct (remove_first (chat st)); repeat split.
Qed.

Lemma without_indicator_bubbles (st : State) :
  bubbles (chat (without_indicator st)) = bubbles (chat st).
Proof.
  unfold without_indicator, removeTypingIndicator, modify. cbn [snd].
  destruct (remove_first (before st)); [reflexivity|].
  destruct (remove_first (chat st)) as [l|] eqn:El; [|reflexivity].
  cbn [chat set_chat]. now apply remove_first_purge.
Qed.

Lemma without_indicator_markups (st : State) :
  incl (markups (chat (without_indicator st))) (markups (chat st)).
Proof.
  unfold without_indicator, removeTypingIndicator, modify. cbn [snd].
  destruct (remove_first (before st)); [apply incl_refl|].
  destruct (remove_first (chat st)) as [l|] eqn:El; [|apply incl_refl].
  cbn [chat set_chat]. now apply remove_first_markups.
Qed.

(** The placeholder is the element removed when it is the first of the
    document to carry the id. *)
Lemma without_indicator_found (st : State) (pre post : list Node) :
  no_indicator (before st) ->
  chat st = pre ++ typing_node :: post ->
  no_indicator pre ->
  without_indicator st = set_chat (pre ++ post) st.
Proof.
  intros Hb Hc Hp. unfold without_indicator, removeTypingIndicator, modify. cbn [snd].
  rewrite (remove_first_none _ Hb), Hc.
  now rewrite (remove_first_found pre post typing_node Hp is_typing_typing_node).
Qed.

Lemma without_indicator_none (st : State) :
  no_indicator (before st) -> no_indicator (chat st) ->
  without_indicator st = st.
Proof.
  intros Hb Hc. unfold without_indicator, removeTypingIndicator, modify. cbn [snd].
  now rewrite (remove_first_none _ Hb), (remove_first_none _ Hc).
Qed.

Lemma user_texts_without_indicator (st : State) :
  user_texts (chat (without_indicator st)) = user_texts (chat st).
Proof. unfold user_texts. now rewrite without_indicator_bubbles. Qed.

Lemma caught_user_texts (e : Exn) (now : jsstring) (st : State) :
  user_texts (chat (snd (caught e now st))) = user_texts (chat st).
Proof.
  unfold caught. destruct (marked_parse (VStr apology)); cbn [snd chat set_chat].
  - unfold bot_bubble.
    rewrite user_texts_app, user_texts_bot, app_nil_r, user_texts_without_indicator.
    reflexivity.
  - rewrite user_texts_without_indicator. reflexivity.
Qed.

Lemma store_token_chat (v : Value) (st : State) :
  chat (snd (store_token v st)) = chat st
  /\ before (snd (store_token v st)) = before st
  /\ sent (snd (store_token v st)) = sent st
  /\ inflight (snd (store_token v st)) = inflight st
  /\ console (snd (store_token v st)) = console st
  /\ input_value (snd (store_token v st)) = input_value st.
Proof.
  unfold store_token. destruct (truthy v); [|repeat split].
  destruct (to_string v); repeat split.
Qed.

(** The completion of a request never touches a user bubble. *)
Lemma settle_user_texts (o : Outcome) (now : jsstring) (st : State) :
  user_texts (chat (snd (settle o now st))) = user_texts (chat st).
Proof.
  rewrite settle_unfold.
  destruct (awaited o) as [data|e]; [|apply caught_user_texts].
  destruct (get_property data (js "session_id")) as [sid|e]; [|apply caught_user_texts].
  destruct (store_token_chat sid st) as (Hchat & _).
  destruct (store_token sid st) as [[[]|e] st1]; cbn [snd] in Hchat.
  2:{ now rewrite caught_user_texts, Hchat. }
  cbn zeta.
  assert (Hst2 : user_texts (chat (without_indicator st1)) = user_texts (chat st))
    by now rewrite user_texts_without_indicator, Hchat.
  destruct (get_property data (js "response")) as [r|e];
    [|now rewrite caught_user_texts].
  destruct (get_property data (js "timestamp")) as [t|e];
    [|now rewrite caught_user_texts].
  destruct (marked_parse r); [|now rewrite caught_user_texts].
  destruct (shown_time t now); [|now rewrite caught_user_texts].
  cbn [snd chat set_chat]. unfold bot_bubble.
  now rewrite user_texts_app, user_texts_bot, app_nil_r.
Qed.

Lemma send_user_texts (message now : jsstring) (st : State) :
  user_texts (chat (snd (send message now st))) = user_texts (chat st).
Proof.
  rewrite send_unfold. destruct (session_field (sessionId st)); [reflexivity|].
  apply caught_user_texts.
Qed.

Lemma submit_blank (now : jsstring) (st : State) :
  forallb is_space (input_value st) = true ->
  submit now st = (Ok tt, st).
Proof.
  intros Hblank. apply trim_nil in Hblank.
  rewrite submit_unfold. cbn zeta. now rewrite Hblank.
Qed.

(** C3. Empty or white-space-only input: [submit] does nothing at all. No
    bubble is appended, no request is sent, the token, the storage and the
    input field are what they were. *)
Theorem submit_blank_is_noop (now : jsstring) (st : State) :
  forallb is_space (input_value st) = true ->
  submit now st = (Ok tt, st).
Proof. apply submit_blank. Qed.

Lemma submit_nonblank (now : jsstring) (st : State) :
  trim (input_value st) <> [] ->
  let t := trim (input_value st) in
  let st' := snd (submit now st) in
  user_texts (chat st') = user_texts (chat st) ++ [t]
  /\ (forall o now', user_texts (chat (snd (settle o now' st'))) = user_texts (chat st'))
  /\ (exists st1,
        chat st1 = chat st ++ [message_node user (Text t) now; typing_node]
        /\ sent st1 = sent st /\ inflight st1 = inflight st
        /\ submit now st = send t now st1)
  /\ (forall fields, session_field (sessionId st) = Ok fields ->
        fst (submit now st) = Ok tt
        /\ chat st' = chat st ++ [message_node user (Text t) now; typing_node]
        /\ inflight st' = S (inflight st)
        /\ sent st' = sent st ++ [request_of t fields]).
Proof.
  intros Hne t st'. subst t st'. rewrite submit_unfold. cbn zeta.
  destruct (trim (input_value st)) as [|c r] eqn:Et; [congruence|]. cbn [is_empty].
  split; [|split; [|split]].
  - rewrite send_user_texts. cbn [chat shown].
    rewrite user_texts_app. unfold user_texts at 2. now rewrite bubbles_submitted.
  - intros o now'. apply settle_user_texts.
  - exists (shown (c :: r) now st). repeat split.
  - intros fields Hf. rewrite send_unfold. cbn [sessionId shown]. rewrite Hf.
    repeat split.
Qed.

(** C4. Input that is non-empty after trimming: exactly one user bubble is
    appended and its text is the trimmed input; it is in the page, followed
    by the typing indicator, before the form is filled and [fetch] called
    ([send]), hence before any completion; and no completion of a request
    adds or changes a user bubble.  When the token held can be put in the
    form, the listener is then suspended at [await fetch] with its request
    in flight and these two elements at the end of the conversation. *)
Theorem submit_appends_user_bubble (now : jsstring) (st : State) :
  trim (input_value st) <> [] ->
  let t := trim (input_value st) in
  let st' := snd (submit now st) in
  user_texts (chat st') = user_texts (chat st) ++ [t]
  /\ (forall o now', user_texts (chat (snd (settle o now' st'))) = user_texts (chat st'))
  /\ (exists st1,
        chat st1 = chat st ++ [message_node user (Text t) now; typing_node]
        /\ sent st1 = sent st /\ inflight st1 = inflight st
        /\ submit now st = send t now st1)
  /\ (forall fields, session_field (sessionId st) = Ok fields ->
        fst (submit now st) = Ok tt
        /\ chat st' = chat st ++ [message_node user (Text t) now; typing_node]
        /\ inflight st' = S (inflight st)
        /\ sent st' = sent st ++ [request_of t fields]).
Proof. apply submit_nonblank. Qed.

(** *** What the [catch] block and a completion leave alone *)

Lemma caught_frame (e : Exn) (now : jsstring) (st : State) :
  let st' := snd (caught e now st) in
  sessionId st' = sessionId st /\ storage st' = storage st
  /\ sent st' = sent st /\ inflight st' = inflight st
  /\ input_value st' = input_value st /\ input_height st' = input_height st
  /\ send_disabled st' = send_disabled st.
Proof.
  cbn zeta. unfold caught.
  destruct (without_indicator_frame (set_console (console st ++ [e]) st))
    as (H1 & H2 & H3 & H4 & H5 & H6 & H7 & _).
  destruct (marked_parse (VStr apology)); cbn [snd];
    [cbn [sessionId storage sent inflight input_value input_height send_disabled set_chat]|];
    rewrite H1, H2, H3, H4, H5, H6, H7; repeat split.
Qed.

Lemma caught_console (e : Exn) (now : jsstring) (st : State) :
  console (snd (caught e now st)) = console st ++ [e].
Proof.
  unfold caught.
  destruct (without_indicator_frame (set_console (console st ++ [e]) st))
    as (_ & _ & _ & _ & _ & _ & _ & H).
  destruct (marked_parse (VStr apology)); cbn [snd console set_chat]; now rewrite H.
Qed.

Lemma caught_result (e : Exn) (now markup : jsstring) (st : State) :
  marked_parse (VStr apology) = Some markup ->
  caught e now st
  = (Ok tt, let st1 := without_indicator (set_console (console st ++ [e]) st) in
            set_chat (chat st1 ++ [bot_bubble markup now]) st1).
Proof. intros Hm. unfold caught. now rewrite Hm. Qed.

Lemma stored_frame (o : Outcome) (st : State) :
  chat (stored o st) = chat st /\ before (stored o st) = before st
  /\ sent (stored o st) = sent st /\ inflight (stored o st) = inflight st
  /\ console (stored o st) = console st /\ input_value (stored o st) = input_value st.
Proof.
  unfold stored. destruct (awaited o) as [data|e]; [|repeat split].
  destruct (get_property data (js "session_id")) as [sid|e]; [|repeat split].
  apply store_token_chat.
Qed.

(** The three ways a completion ends: in the [catch] block before the
    indicator was removed, in the [catch] block after it was removed, or
    with the reply shown. *)
Lemma settle_shape (o : Outcome) (now : jsstring) (st : State) :
  (exists e, settle o now st = caught e now (stored o st))
  \/ (exists e data,
        awaited o = Ok data
        /\ settle o now st = caught e now (without_indicator (stored o st)))
  \/ (exists data response timestamp markup time,
        awaited o = Ok data
        /\ get_property data (js "response") = Ok response
        /\ get_property data (js "timestamp") = Ok timestamp
        /\ marked_parse response = Some markup
        /\ shown_time timestamp now = Ok time
        /\ settle o now st
           = (Ok tt, set_chat (chat (without_indicator (stored o st))
                               ++ [bot_bubble markup time])
                       (without_indicator (stored o st)))).
Proof.
  rewrite settle_unfold. unfold stored.
  destruct (awaited o) as [data|e]; [|left; eauto].
  destruct (get_property data (js "session_id")) as [sid|e]; [|left; eauto].
  destruct (store_token sid st) as [[[]|e] st1]; [|left; eauto]. cbn [snd]. cbn zeta.
  destruct (get_property data (js "response")) as [r|e] eqn:Er;
    [|right; left; eauto].
  destruct (get_property data (js "timestamp")) as [t|e] eqn:Etm;
    [|right; left; eauto].
  destruct (marked_parse r) as [m|] eqn:Em; [|right; left; eauto].
  destruct (shown_time t now) as [time|e] eqn:Et; [|right; left; eauto].
  right; right. exists data, r, t, m, time. repeat split; try assumption; reflexivity.
Qed.

(** A completion changes the token as line 49-52 do, and nothing else
    does. *)
Lemma settle_token (o : Outcome) (now : jsstring) (st : State) :
  sessionId (snd (settle o now st)) = sessionId (stored o st)
  /\ storage (snd (settle o now st)) = storage (stored o st).
Proof.
  destruct (settle_shape o now st)
    as [(e & ->)|[(e & data & _ & ->)|(data & r & t & m & time & _ & _ & _ & _ & _ & ->)]].
  - destruct (caught_frame e now (stored o st)) as (H1 & H2 & _). now split.
  - destruct (caught_frame e now (without_indicator (stored o st))) as (H1 & H2 & _).
    destruct (without_indicator_frame (stored o st)) as (_ & _ & _ & H3 & H4 & _).
    cbn zeta in H1, H2. rewrite H1, H2, H3, H4. now split.
  - destruct (without_indicator_frame (stored o st)) as (_ & _ & _ & H3 & H4 & _).
    cbn [snd sessionId storage set_chat]. now split.
Qed.

(** A completion makes no request: nothing is retried. *)
Lemma settle_sent (o : Outcome) (now : jsstring) (st : State) :
  sent (snd (settle o now st)) = sent st
  /\ inflight (snd (settle o now st)) = inflight st
  /\ input_value (snd (settle o now st)) = input_value st.
Proof.
  destruct (stored_frame o st) as (_ & _ & S1 & S2 & _ & S3).
  destruct (without_indicator_frame (stored o st)) as (W3 & _ & _ & _ & _ & W1 & W2 & _).
  destruct (settle_shape o now st)
    as [(e & ->)|[(e & data & _ & ->)|(data & r & t & m & time & _ & _ & _ & _ & _ & ->)]].
  - destruct (caught_frame e now (stored o st)) as (_ & _ & H1 & H2 & H3 & _).
    cbn zeta in H1, H2, H3. rewrite H1, H2, H3. now repeat split.
  - destruct (caught_frame e now (without_indicator (stored o st)))
      as (_ & _ & H1 & H2 & H3 & _).
    cbn zeta in H1, H2, H3. rewrite H1, H2, H3, W1, W2, W3. now repeat split.
  - cbn [snd sent inflight input_value set_chat]. rewrite W1, W2, W3. now repeat split.
Qed.

Lemma store_token_token (v : Value) (st : State) :
  (truthy v = false
   /\ sessionId (snd (store_token v st)) = sessionId st
   /\ storage (snd (store_token v st)) = storage st)
  \/ (truthy v = true
      /\ sessionId (snd (store_token v st)) = v
      /\ match to_string v with
         | Ok s => storage (snd (store_token v st)) = <[chatSessionId := s]> (storage st)
         | Throw _ => storage (snd (store_token v st)) = storage st
         end).
Proof.
  unfold store_token. destruct (truthy v); [right | left; repeat split].
  split; [reflexivity|]. destruct (to_string v); split; reflexivity.
Qed.

Lemma send_frame (message now : jsstring) (st : State) :
  sessionId (snd (send message now st)) = sessionId st
  /\ storage (snd (send message now st)) = storage st
  /\ input_value (snd (send message now st)) = input_value st
  /\ input_height (snd (send message now st)) = input_height st
  /\ send_disabled (snd (send message now st)) = send_disabled st.
Proof.
  rewrite send_unfold. destruct (session_field (sessionId st)); [repeat split|].
  destruct (caught_frame e now st) as (H1 & H2 & _ & _ & H3 & H4 & H5).
  now repeat split.
Qed.

(** A submission leaves the token alone. *)
Lemma submit_token (now : jsstring) (st : State) :
  sessionId (snd (submit now st)) = sessionId st
  /\ storage (snd (submit now st)) = storage st.
Proof.
  rewrite submit_unfold. cbn zeta.
  destruct (is_empty (trim (input_value st))); [now split|].
  destruct (send_frame (trim (input_value st)) now (shown (trim (input_value st)) now st))
    as (H1 & H2 & _).
  now split.
Qed.

(** What a submission sends: nothing, or one request for the trimmed text
    with the [session_id] entry of the token held. *)
Lemma submit_sent (now : jsstring) (st : State) :
  (sent (snd (submit now st)) = sent st /\ inflight (snd (submit now st)) = inflight st)
  \/ (exists fields,
        trim (input_value st) <> []
        /\ session_field (sessionId st) = Ok fields
        /\ sent (snd (submit now st))
           = sent st ++ [request_of (trim (input_value st)) fields]
        /\ inflight (snd (submit now st)) = S (inflight st)).
Proof.
  rewrite submit_unfold. cbn zeta.
  destruct (trim (input_value st)) as [|c r] eqn:Et; [left; now split|].
  cbn [is_empty]. rewrite send_unfold. cbn [sessionId shown].
  destruct (session_field (sessionId st)) as [fields|e] eqn:Ef.
  - right. exists fields. repeat split. discriminate.
  - left. destruct (caught_frame e now (shown (c :: r) now st)) as (_ & _ & H1 & H2 & _).
    now split.
Qed.

Lemma assign_value_string (q : jsstring) (st : State) :
  assign_value (VStr q) st = (Ok tt, set_input_value (field_content q) st).
Proof.
  unfold assign_value. run_monad. cbn [to_string].
  now rewrite normalize_newlines_spec.
Qed.

Lemma on_quick_unfold (question : option jsstring) (now : jsstring) (st : State) :
  on_quick question now st
  = submit now (set_input_value
                  (match question with Some q => field_content q | None => [] end) st).
Proof.
  unfold on_quick. unfold mbind at 1, M_bind at 1, bind at 1.
  destruct question as [q|]; [now rewrite assign_value_string | reflexivity].
Qed.


(** *** Quick questions *)

Lemma field_content_plain (p : jsstring) :
  Forall (fun c => c <> 13%N) p -> field_content p = p.
Proof.
  unfold field_content. induction 1 as [|c r Hc Hr IH]; [reflexivity|].
  assert (Ec : (c =? 13)%N = false) by now apply N.eqb_neq.
  cbn [crlf_to_lf]. destruct r as [|d r'].
  - cbn. now rewrite Ec.
  - rewrite Ec. cbn [andb]. cbn [cr_to_lf map]. rewrite Ec. f_equal. exact IH.
Qed.

(** C8. A click on a quick question with preset text [p] is the same as
    [p] becoming the content of the input field followed by [submit]: same
    result and same page (bubbles, storage, token, requests, log, field).
    The content of the field is [p] as a text area holds it (line breaks
    normalised; [p] itself when it has no carriage return).  So a blank [p]
    ends in the field and nothing else happens; otherwise the trimmed [p]
    is the text of the user bubble appended and of the request made. *)
Theorem quick_question_is_populate_then_submit (p now : jsstring) (st : State) :
  on_quick (Some p) now st = quickSubmit_spec p now st
  /\ (forallb is_space (field_content p) = true ->
      on_quick (Some p) now st = (Ok tt, populate p st))
  /\ (trim (field_content p) <> [] ->
      user_texts (chat (step (EQuick (Some p) now) st))
      = user_texts (chat st) ++ [trim (field_content p)]
      /\ forall fields, session_field (sessionId st) = Ok fields ->
           sent (step (EQuick (Some p) now) st)
           = sent st ++ [request_of (trim (field_content p)) fields])
  /\ (Forall (fun c => c <> 13%N) p -> field_content p = p).
Proof.
  assert (Hq : on_quick (Some p) now st = quickSubmit_spec p now st)
    by apply on_quick_unfold.
  split; [exact Hq|]. split; [|split].
  - intros Hblank. rewrite Hq. unfold quickSubmit_spec.
    now apply submit_blank.
  - intros Hne. unfold step. cbn [listener]. rewrite Hq. unfold quickSubmit_spec.
    destruct (submit_nonblank now (populate p st) Hne) as (Hu & _ & _ & Hs).
    split; [exact Hu|].
    intros fields Hf. now destruct (Hs fields Hf) as (_ & _ & _ & Hsent).
  - apply field_content_plain.
Qed.

(** *** Markup *)

Lemma markups_user_bubble (t time : jsstring) :
  markups [message_node user (Text t) time; typing_node] = [typing_markup].
Proof. reflexivity. Qed.

Lemma markups_bot_bubble (markup time : jsstring) :
  markups [bot_bubble markup time] = [markup].
Proof. reflexivity. Qed.

Lemma caught_markups (e : Exn) (now : jsstring) (st : State) (m : jsstring) :
  In m (markups (chat (snd (caught e now st)))) ->
  In m (markups (chat st)) \/ marked_parse (VStr apology) = Some m.
Proof.
  unfold caught.
  pose proof (without_indicator_markups (set_console (console st ++ [e]) st)) as Hi.
  cbn [chat set_console] in Hi.
  destruct (marked_parse (VStr apology)) as [markup|]; cbn [snd chat set_chat].
  - rewrite markups_app, markups_bot_bubble, in_app_iff. intros [H|[<-|[]]].
    + left. now apply Hi.
    + now right.
  - intros H. left. now apply Hi.
Qed.

Lemma awaited_parsed (o : Outcome) (data : Value) :
  awaited o = Ok data -> exists status, o = Resolved status (Parsed data).
Proof.
  destruct o as [|status [|d]]; cbn; intros H; try discriminate.
  injection H as ->. eauto.
Qed.

Lemma settle_markups (o : Outcome) (now : jsstring) (st : State) (m : jsstring) :
  In m (markups (chat (snd (settle o now st)))) ->
  In m (markups (chat st))
  \/ exists v, In v (VStr apology :: response_of (ESettle o now))
               /\ marked_parse v = Some m.
Proof.
  destruct (stored_frame o st) as (Hchat & _).
  pose proof (without_indicator_markups (stored o st)) as Hi. rewrite Hchat in Hi.
  destruct (settle_shape o now st)
    as [(e & ->)|[(e & data & _ & ->)|(data & r & t & mk & time & Ho & Hr & _ & Hm & _ & ->)]].
  - intros H. apply caught_markups in H as [H|H].
    + left. now rewrite <- Hchat.
    + right. exists (VStr apology). split; [now left | exact H].
  - intros H. apply caught_markups in H as [H|H].
    + left. now apply Hi.
    + right. exists (VStr apology). split; [now left | exact H].
  - cbn [snd chat set_chat]. rewrite markups_app, markups_bot_bubble, in_app_iff.
    intros [H|[<-|[]]].
    + left. now apply Hi.
    + right. exists r. split; [|exact Hm].
      destruct (awaited_parsed o data Ho) as (status & ->).
      right. cbn [response_of]. rewrite Hr. now left.
Qed.

Lemma submit_markups (now : jsstring) (st : State) (m : jsstring) :
  In m (markups (chat (snd (submit now st)))) ->
  In m (markups (chat st)) \/ m = typing_markup
  \/ marked_parse (VStr apology) = Some m.
Proof.
  rewrite submit_unfold. cbn zeta.
  destruct (is_empty (trim (input_value st))); [now left|].
  rewrite send_unfold. cbn [sessionId shown].
  assert (Hshown : forall t, In m (markups (chat (shown t now st))) ->
                             In m (markups (chat st)) \/ m = typing_markup).
  { intros t. cbn [chat shown]. rewrite markups_app, markups_user_bubble, in_app_iff.
    intros [H|[<-|[]]]; [now left | now right]. }
  destruct (session_field (sessionId st)) as [fields|e].
  - intros H. cbn [snd chat set_inflight set_sent] in H.
    apply Hshown in H as [H|H]; [now left | now right; left].
  - intros H. apply caught_markups in H as [H|H]; [|now right; right].
    apply Hshown in H as [H|H]; [now left | now right; left].
Qed.

Lemma step_markups (e : Event) (st : State) (m : jsstring) :
  In m (markups (chat (step e st))) ->
  In m (markups (chat st)) \/ m = typing_markup
  \/ exists v, In v (VStr apology :: response_of e) /\ marked_parse v = Some m.
Proof.
  assert (Hsubmit : forall now st0, chat st0 = chat st ->
            In m (markups (chat (snd (submit now st0)))) ->
            In m (markups (chat st)) \/ m = typing_markup
            \/ exists v, In v (VStr apology :: response_of e) /\ marked_parse v = Some m).
  { intros now st0 Hc H. apply submit_markups in H as [H|[H|H]].
    - left. now rewrite <- Hc.
    - now right; left.
    - right; right. exists (VStr apology). split; [now left | exact H]. }
  unfold step. destruct e as [v h|now|key shift now|q now|o now]; cbn [listener].
  - now left.
  - now apply Hsubmit.
  - unfold on_keydown. destruct (_ && _); [now apply Hsubmit | now left].
  - rewrite on_quick_unfold. now apply Hsubmit.
  - destruct (inflight st) as [|n]; [now left|].
    intros H. apply settle_markups in H as [H|H]; [now left | now right; right].
Qed.

Lemma run_markups (es : list Event) (st : State) (m : jsstring) :
  In m (markups (chat (run es st))) ->
  In m (markups (chat st)) \/ m = typing_markup
  \/ exists v, In v (rendered_sources es) /\ marked_parse v = Some m.
Proof.
  revert st. induction es as [|e es IH]; intros st; [now left|].
  cbn [run fold_left]. fold (run es (step e st)). intros H.
  unfold rendered_sources. cbn [map concat].
  apply IH in H as [H|[H|(v & Hv & Hm)]].
  - apply step_markups in H as [H|[H|(v & Hv & Hm)]]; [now left | now right; left|].
    right; right. exists v. split; [|exact Hm].
    destruct Hv as [<-|Hv]; [now left | right; apply in_app_iff; now left].
  - now right; left.
  - right; right. exists v. split; [|exact Hm].
    destruct Hv as [<-|Hv]; [now left | right; apply in_app_iff; now right].
Qed.

(** C5. The rendering rule of [addMessage].  Text of the user becomes the
    [textContent] of the [message-text] element of a bubble of class
    [user-message], as it is, and nothing in that bubble was parsed as
    markup.  Text for the bot goes through [marked.parse] and the result is
    assigned to the [innerHTML] of the [message-text] element of a bubble of
    class [bot-message]; when [marked.parse] throws, nothing is appended.
    And no text of the user reaches [innerHTML]: after any run of events,
    every markup string in the conversation was there before, or is the
    fixed template of the typing indicator, or is what [marked.parse] made
    of the apology or of the [response] of a body the server sent; an event
    of the user adds no markup but the template and the rendered
    apology. *)
Theorem rendering_rule :
  (forall now t timestamp time st,
      shown_time timestamp now = Ok time ->
      let n := message_node user (Text t) time in
      addMessage now (VStr t) user timestamp st
      = (Ok tt, set_chat (chat st ++ [n]) st)
      /\ n = Elem (js "div") (js "message user-message") []
               (Kids [Elem (js "div") (js "message-avatar") [] (Text avatar_user);
                      Elem (js "div") (js "message-content") []
                        (Kids [Elem (js "div") (js "message-text") [] (Text t);
                               Elem (js "div") (js "message-time") [] (Text time)])])
      /\ content_at (js "message-text") n = Some (Text t)
      /\ user_text n = Some t
      /\ node_markups n = [])
  /\ (forall now text timestamp markup time st,
      marked_parse text = Some markup ->
      shown_time timestamp now = Ok time ->
      let n := bot_bubble markup time in
      addMessage now text bot timestamp st
      = (Ok tt, set_chat (chat st ++ [n]) st)
      /\ n = Elem (js "div") (js "message bot-message") []
               (Kids [Elem (js "div") (js "message-avatar") [] (Text avatar_bot);
                      Elem (js "div") (js "message-content") []
                        (Kids [Elem (js "div") (js "message-text") []
                                 (Html markup (parse_html markup));
                               Elem (js "div") (js "message-time") [] (Text time)])])
      /\ content_at (js "message-text") n = Some (Html markup (parse_html markup))
      /\ node_markups n = [markup])
  /\ (forall now text timestamp st,
      marked_parse text = None ->
      addMessage now text bot timestamp st = (Throw MarkedThrew, st))
  /\ (forall es st m,
      In m (markups (chat (run es st))) ->
      In m (markups (chat st)) \/ m = typing_markup
      \/ exists v, In v (rendered_sources es) /\ marked_parse v = Some m)
  /\ (forall e st m,
      user_event e ->
      In m (markups (chat (step e st))) ->
      In m (markups (chat st)) \/ m = typing_markup
      \/ marked_parse (VStr apology) = Some m).
Proof.
  split; [|split; [|split; [|split]]].
  - intros now t timestamp time st Ht n. subst n.
    rewrite addMessage_user, Ht.
    repeat match goal with |- _ /\ _ => split end; reflexivity.
  - intros now text timestamp markup time st Hm Ht n. subst n.
    rewrite addMessage_bot, Hm, Ht.
    repeat match goal with |- _ /\ _ => split end; reflexivity.
  - intros now text timestamp st Hm. now rewrite addMessage_bot, Hm.
  - apply run_markups.
  - intros e st m He H. apply step_markups in H as [H|[H|(v & Hv & Hm)]];
      [now left | now right; left|].
    right; right. destruct e; try contradiction; cbn [response_of] in Hv;
      destruct Hv as [<-|[]]; exact Hm.
Qed.

(** *** The session token *)

Lemma session_field_string (tok : jsstring) :
  tok <> [] -> session_field (VStr tok) = Ok [(js "session_id", to_usv tok)].
Proof. destruct tok; [congruence | reflexivity]. Qed.

(** C7 (as the code has it). A response without a [session_id] leaves the
    token as it was, in memory and in storage, and the next submission of
    text is made with that token: a token that is a non-empty string is in
    the payload as [session_id], converted to a scalar-value string, so
    unchanged when it is well formed; without a token the payload has no
    [session_id]. *)
Theorem response_without_session_id (status : N) (data : Value)
    (now : jsstring) (st : State) :
  (forall v, get_property data (js "session_id") = Ok v -> v = VUndef) ->
  let st' := snd (settle (Resolved status (Parsed data)) now st) in
  sessionId st' = sessionId st
  /\ storage st' = storage st
  /\ (forall v now' tok, trim v <> [] -> sessionId st = VStr tok -> tok <> [] ->
        exists r, sent (snd (submit now' (set_input_value v st'))) = sent st' ++ [r]
                  /\ req_body r = [(js "user_input", to_usv (trim v));
                                   (js "session_id", to_usv tok)]
                  /\ (well_formed tok -> has_session_id tok r))
  /\ (forall v now', trim v <> [] -> sessionId st = VNull ->
        exists r, sent (snd (submit now' (set_input_value v st'))) = sent st' ++ [r]
                  /\ req_body r = [(js "user_input", to_usv (trim v))]).
Proof.
  intros Habsent st'.
  assert (Htok : sessionId st' = sessionId st /\ storage st' = storage st).
  { subst st'. destruct (settle_token (Resolved status (Parsed data)) now st) as [-> ->].
    unfold stored. cbn [awaited].
    destruct (get_property data (js "session_id")) as [sid|e]; [|now split].
    rewrite (Habsent sid eq_refl). now split. }
  destruct Htok as [Hsid Hsto]. clearbody st'.
  split; [exact Hsid|]. split; [exact Hsto|]. split.
  - intros v now' tok Hv Htok Hne.
    destruct (submit_nonblank now' (set_input_value v st') Hv)
      as (_ & _ & _ & Hs).
    cbn [input_value sessionId set_input_value sent inflight chat] in Hs.
    rewrite Hsid, Htok in Hs.
    destruct (Hs _ (session_field_string tok Hne)) as (_ & _ & _ & Hsent).
    eexists. split; [exact Hsent|]. split; [reflexivity|].
    intros Hwf. unfold has_session_id, request_of. cbn [req_body].
    rewrite Hwf. right. now left.
  - intros v now' Hv Hnull.
    destruct (submit_nonblank now' (set_input_value v st') Hv)
      as (_ & _ & _ & Hs).
    cbn [input_value sessionId set_input_value sent inflight chat] in Hs.
    rewrite Hsid, Hnull in Hs.
    destruct (Hs [] eq_refl) as (_ & _ & _ & Hsent).
    eexists. split; [exact Hsent | reflexivity].
Qed.

(** C9 (as the code has it). An empty string as [session_id] is handled
    like an absent one: the two responses lead to the same page.  A string
    [session_id] is stored, in memory and in storage together, exactly when
    it is non-empty; a held string token is sent exactly when it is
    non-empty. *)
Theorem empty_session_id_is_absent :
  (forall s1 s2 d1 d2 now st,
      get_property d1 (js "session_id") = Ok (VStr []) ->
      get_property d2 (js "session_id") = Ok VUndef ->
      get_property d1 (js "response") = get_property d2 (js "response") ->
      get_property d1 (js "timestamp") = get_property d2 (js "timestamp") ->
      settle (Resolved s1 (Parsed d1)) now st = settle (Resolved s2 (Parsed d2)) now st)
  /\ (forall status data tok now st,
      get_property data (js "session_id") = Ok (VStr tok) ->
      let st' := snd (settle (Resolved status (Parsed data)) now st) in
      (tok = [] /\ sessionId st' = sessionId st /\ storage st' = storage st)
      \/ (tok <> [] /\ sessionId st' = VStr tok
          /\ storage st' = <[chatSessionId := tok]> (storage st)))
  /\ (forall tok now st,
      sessionId st = VStr tok -> trim (input_value st) <> [] ->
      exists r, sent (snd (submit now st)) = sent st ++ [r]
                /\ req_body r = (js "user_input", to_usv (trim (input_value st)))
                                :: (if is_empty tok then []
                                    else [(js "session_id", to_usv tok)])).
Proof.
  split; [|split].
  - intros s1 s2 d1 d2 now st H1 H2 Hr Ht.
    rewrite !settle_unfold. cbn [awaited]. rewrite H1, H2, Hr, Ht. reflexivity.
  - intros status data tok now st Htok st'. subst st'.
    destruct (settle_token (Resolved status (Parsed data)) now st) as [-> ->].
    unfold stored. cbn [awaited]. rewrite Htok.
    unfold store_token. cbn [truthy to_string].
    destruct tok as [|c r]; cbn [is_empty negb snd].
    + left. now split.
    + right. split; [discriminate | now split].
  - intros tok now st Htok Hne.
    destruct (submit_nonblank now st Hne) as (_ & _ & _ & Hs).
    rewrite Htok in Hs.
    destruct tok as [|c r].
    + destruct (Hs [] eq_refl) as (_ & _ & _ & Hsent).
      eexists. split; [exact Hsent | reflexivity].
    + destruct (Hs _ (session_field_string (c :: r) ltac:(discriminate)))
        as (_ & _ & _ & Hsent).
      eexists. split; [exact Hsent | reflexivity].
Qed.


(** *** Failures *)

Lemma bubbles_bot (markup time : jsstring) :
  bubbles [bot_bubble markup time] = [purge (bot_bubble markup time)].
Proof.
  unfold bubbles, bot_bubble. cbn [purge_forest].
  now rewrite is_typing_message_node.
Qed.

Lemma awaited_failure (o : Outcome) :
  (o = Rejected \/ exists status, o = Resolved status Malformed) ->
  exists error, awaited o = Throw error.
Proof. intros [->|[status ->]]; cbn; eauto. Qed.

Lemma settle_failure (o : Outcome) (error : Exn) (now markup : jsstring) (st : State) :
  awaited o = Throw error ->
  marked_parse (VStr apology) = Some markup ->
  settle o now st
  = (Ok tt, let st1 := without_indicator (set_console (console st ++ [error]) st) in
            set_chat (chat st1 ++ [bot_bubble markup now]) st1).
Proof. intros Ho Hm. rewrite settle_unfold, Ho. now apply caught_result. Qed.

(** The conversation after the [catch] block. *)
Lemma caught_chat (e : Exn) (now markup : jsstring) (st : State) :
  marked_parse (VStr apology) = Some markup ->
  let st' := snd (caught e now st) in
  bubbles (chat st') = bubbles (chat st) ++ [purge (bot_bubble markup now)]
  /\ last (chat st') = Some (bot_bubble markup now)
  /\ (forall pre post,
        no_indicator (before st) -> no_indicator pre ->
        chat st = pre ++ typing_node :: post ->
        chat st' = pre ++ post ++ [bot_bubble markup now])
  /\ (no_indicator (before st) -> no_indicator (chat st) ->
      chat st' = chat st ++ [bot_bubble markup now]).
Proof.
  intros Hm st'. subst st'. rewrite (caught_result e now markup st Hm).
  cbn zeta. cbn [snd chat set_chat]. split; [|split; [|split]].
  - now rewrite bubbles_app, bubbles_bot, without_indicator_bubbles.
  - apply last_snoc.
  - intros pre post Hb Hp Hc.
    rewrite (without_indicator_found (set_console (console st ++ [e]) st) pre post Hb Hc Hp).
    cbn [chat set_chat]. now rewrite <- app_assoc.
  - intros Hb Hc.
    now rewrite (without_indicator_none (set_console (console st ++ [e]) st) Hb Hc).
Qed.

Lemma settle_status (s1 s2 : N) (body : Body) (now : jsstring) (st : State) :
  settle (Resolved s1 body) now st = settle (Resolved s2 body) now st.
Proof. rewrite !settle_unfold. reflexivity. Qed.

(** C2 (as the code has it). A rejected [fetch] and a body that is not JSON
    are caught by the listener, provided [marked.parse] renders the apology:
    the error is logged, the first element of the document with the id
    [typing-indicator] is removed (the placeholder, when no element before it
    carries the id), exactly one bot bubble with the rendered apology and
    the local time is appended, nothing is thrown on and no request is made;
    the two causes differ in the logged error only.  The HTTP status is not
    consulted: the listener does the same for every status. *)
Theorem transport_failure_caught (o : Outcome) (now markup : jsstring) (st : State) :
  (o = Rejected \/ exists status, o = Resolved status Malformed) ->
  marked_parse (VStr apology) = Some markup ->
  let st' := snd (settle o now st) in
  (exists error,
      settle o now st
      = (Ok tt, let st1 := without_indicator (set_console (console st ++ [error]) st) in
                set_chat (chat st1 ++ [bot_bubble markup now]) st1))
  /\ bubbles (chat st') = bubbles (chat st) ++ [purge (bot_bubble markup now)]
  /\ last (chat st') = Some (bot_bubble markup now)
  /\ bot_bubble markup now
     = Elem (js "div") (js "message bot-message") []
         (Kids [Elem (js "div") (js "message-avatar") [] (Text avatar_bot);
                Elem (js "div") (js "message-content") []
                  (Kids [Elem (js "div") (js "message-text") []
                           (Html markup (parse_html markup));
                         Elem (js "div") (js "message-time") [] (Text now)])])
  /\ (forall pre post,
        no_indicator (before st) -> no_indicator pre ->
        chat st = pre ++ typing_node :: post ->
        chat st' = pre ++ post ++ [bot_bubble markup now])
  /\ sent st' = sent st
  /\ inflight st' = inflight st
  /\ (forall s1 s2 body now' st0,
        settle (Resolved s1 body) now' st0 = settle (Resolved s2 body) now' st0).
Proof.
  intros Ho Hm st'. subst st'. destruct (awaited_failure o Ho) as [error He].
  pose proof (settle_failure o error now markup st He Hm) as Hs.
  destruct (settle_sent o now st) as (Hsent & Hinf & _).
  assert (Hc : settle o now st = caught error now st)
    by now rewrite settle_unfold, He.
  destruct (caught_chat error now markup st Hm) as (Hb & Hl & Hp & _).
  rewrite <- Hc in Hb, Hl, Hp.
  split; [eauto|]. split; [exact Hb|]. split; [exact Hl|]. split; [reflexivity|].
  split; [exact Hp|]. split; [exact Hsent|]. split; [exact Hinf|].
  intros. apply settle_status.
Qed.


(** *** The token over a run of events *)

Lemma on_input_frame (v : jsstring) (h : N) (st : State) :
  let st' := step (EInput v h) st in
  sessionId st' = sessionId st /\ storage st' = storage st /\ sent st' = sent st
  /\ inflight st' = inflight st /\ chat st' = chat st /\ before st' = before st
  /\ console st' = console st /\ input_value st' = v.
Proof. cbn zeta. unfold step. cbn [listener]. repeat split. Qed.

(** An event leaves the token alone, in memory and in storage, or it is the
    completion of a request whose body has a truthy [session_id]: then
    memory holds that value, and storage its string form if it has one. *)
Lemma step_token (e : Event) (st : State) :
  (sessionId (step e st) = sessionId st /\ storage (step e st) = storage st)
  \/ exists status data now v,
       e = ESettle (Resolved status (Parsed data)) now
       /\ get_property data (js "session_id") = Ok v
       /\ truthy v = true
       /\ sessionId (step e st) = v
       /\ match to_string v with
          | Ok s => storage (step e st) = <[chatSessionId := s]> (storage st)
          | Throw _ => storage (step e st) = storage st
          end.
Proof.
  unfold step. destruct e as [v h|now|key shift now|q now|o now]; cbn [listener].
  - left. now split.
  - left. apply submit_token.
  - left. unfold on_keydown. destruct (_ && _); [apply submit_token | now split].
  - left. rewrite on_quick_unfold.
    destruct (submit_token now (set_input_value
                (match q with Some q0 => field_content q0 | None => [] end) st))
      as [H1 H2].
    now split.
  - destruct (inflight st) as [|n]; [left; now split|].
    destruct (settle_token o now (set_inflight n st)) as [-> ->].
    unfold stored.
    destruct o as [|status [|data]]; cbn [awaited]; try (left; now split).
    destruct (get_property data (js "session_id")) as [v|err] eqn:Ev;
      [|left; now split].
    destruct (store_token_token v (set_inflight n st)) as [(_ & H1 & H2)|(Ht & H1 & H2)].
    + left. now split.
    + right. exists status, data, now, v. repeat split; assumption.
Qed.

Lemma step_sent (e : Event) (st : State) :
  sent (step e st) = sent st
  \/ exists message fields,
       message <> [] /\ trimmed message
       /\ session_field (sessionId st) = Ok fields
       /\ sent (step e st) = sent st ++ [request_of message fields].
Proof.
  assert (Hsubmit : forall now st0, sent st0 = sent st -> sessionId st0 = sessionId st ->
            sent (snd (submit now st0)) = sent st
            \/ exists message fields,
                 message <> [] /\ trimmed message
                 /\ session_field (sessionId st) = Ok fields
                 /\ sent (snd (submit now st0)) = sent st ++ [request_of message fields]).
  { intros now st0 Hs Hsid.
    destruct (submit_sent now st0) as [[H _]|(fields & Hne & Hf & H & _)].
    - left. now rewrite H.
    - right. exists (trim (input_value st0)), fields.
      rewrite <- Hs, <- Hsid. repeat split; try assumption; apply trimmed_trim. }
  unfold step. destruct e as [v h|now|key shift now|q now|o now]; cbn [listener].
  - now left.
  - now apply Hsubmit.
  - unfold on_keydown. destruct (_ && _); [now apply Hsubmit | now left].
  - rewrite on_quick_unfold. now apply Hsubmit.
  - left. destruct (inflight st) as [|n]; [reflexivity|].
    now destruct (settle_sent o now (set_inflight n st)) as (-> & _).
Qed.

Lemma step_keeps (tok : jsstring) (e : Event) (st : State) :
  tok <> [] -> well_formed tok ->
  sessionId st = VStr tok ->
  storage st !! chatSessionId = Some tok ->
  keeps tok e ->
  sessionId (step e st) = VStr tok
  /\ storage (step e st) !! chatSessionId = Some tok
  /\ exists new, sent (step e st) = sent st ++ new /\ Forall (has_session_id tok) new.
Proof.
  intros Hne Hwf Hsid Hsto Hk.
  assert (Htoken : sessionId (step e st) = VStr tok
                   /\ storage (step e st) !! chatSessionId = Some tok).
  { destruct (step_token e st)
      as [[-> ->]|(status & data & now & v & -> & Hv & Ht & -> & Hs)];
      [now split|].
    cbn [keeps] in Hk. rewrite (Hk v Hv Ht) in Hs |- *. cbn [to_string] in Hs.
    rewrite Hs. split; [reflexivity | apply lookup_insert_eq]. }
  destruct Htoken as [H1 H2]. split; [exact H1|]. split; [exact H2|].
  destruct (step_sent e st) as [->|(m & fields & _ & _ & Hf & ->)].
  - exists []. split; [now rewrite app_nil_r | constructor].
  - eexists. split; [reflexivity|]. constructor; [|constructor].
    rewrite Hsid, (session_field_string tok Hne), Hwf in Hf. injection Hf as <-.
    unfold has_session_id, request_of. cbn [req_body]. right. now left.
Qed.

(** C1 (as the code has it). A [session_id] of a response that is a
    non-empty, well-formed string is the token afterwards, in memory and in
    storage under [chatSessionId]; and as long as the server issues no other
    value, it stays there and every request made carries
    [session_id=tok]. *)
Theorem session_id_stored_and_sent (status : N) (data : Value) (tok : jsstring)
    (now : jsstring) (st : State) :
  get_property data (js "session_id") = Ok (VStr tok) ->
  tok <> [] ->
  well_formed tok ->
  let st' := snd (settle (Resolved status (Parsed data)) now st) in
  sessionId st' = VStr tok
  /\ storage st' !! chatSessionId = Some tok
  /\ forall es, Forall (keeps tok) es ->
       sessionId (run es st') = VStr tok
       /\ storage (run es st') !! chatSessionId = Some tok
       /\ exists new, sent (run es st') = sent st' ++ new
                      /\ Forall (has_session_id tok) new.
Proof.
  intros Hdata Htok Hwf st'.
  assert (Hst' : sessionId st' = VStr tok /\ storage st' !! chatSessionId = Some tok).
  { subst st'. destruct (settle_token (Resolved status (Parsed data)) now st) as [-> ->].
    unfold stored. cbn [awaited]. rewrite Hdata. unfold store_token. cbn [truthy to_string].
    destruct tok; [congruence|]. cbn. split; [reflexivity | apply lookup_insert_eq]. }
  destruct Hst' as [Hsid Hsto]. clearbody st'.
  split; [exact Hsid|]. split; [exact Hsto|].
  intros es. revert st' Hsid Hsto.
  induction es as [|e es IH]; intros st' Hsid Hsto Hes.
  - cbn. split; [exact Hsid|]. split; [exact Hsto|].
    exists []. split; [now rewrite app_nil_r | constructor].
  - inversion Hes as [|? ? He Hrest]; subst.
    destruct (step_keeps tok e st' Htok Hwf Hsid Hsto He) as (H1 & H2 & new1 & Hn1 & Hf1).
    destruct (IH (step e st') H1 H2 Hrest) as (H3 & H4 & new2 & Hn2 & Hf2).
    cbn [run fold_left]. fold (run es (step e st')).
    split; [exact H3|]. split; [exact H4|].
    exists (new1 ++ new2). split.
    + now rewrite Hn2, Hn1, app_assoc.
    + apply Forall_app; now split.
Qed.

Lemma mirrored_token (st st' : State) :
  sessionId st' = sessionId st -> storage st' = storage st ->
  mirrored st -> mirrored st'.
Proof. unfold mirrored. now intros -> ->. Qed.

Lemma step_mirrored (e : Event) (st : State) :
  mirrored st -> mirrored (step e st).
Proof.
  intros Hm.
  destruct (step_token e st) as [[H1 H2]|(status & data & now & v & _ & _ & Ht & H1 & H2)].
  - now apply (mirrored_token st).
  - unfold mirrored. rewrite H1, Ht. intros s Hs. rewrite Hs in H2. rewrite H2.
    apply lookup_insert_eq.
Qed.

Lemma init_mirrored (value height : jsstring) (outside children : list Node)
    (store : gmap jsstring jsstring) :
  mirrored (init value height outside children store).
Proof.
  unfold mirrored, init, getItem, or_else. cbn [sessionId storage].
  destruct (store !! chatSessionId) as [[|c r]|] eqn:Es; cbn.
  - split; [reflexivity | now right].
  - intros s Hs. now injection Hs as <-.
  - split; [reflexivity | now left].
Qed.

Lemma run_mirrored (es : list Event) (st : State) :
  mirrored st -> mirrored (run es st).
Proof.
  revert st. induction es as [|e es IH]; intros st Hst; [exact Hst|].
  cbn [run fold_left]. apply IH, step_mirrored, Hst.
Qed.

Lemma mirrored_string (st : State) (s : jsstring) :
  mirrored st -> sessionId st = VStr s -> storage st !! chatSessionId = Some s.
Proof.
  unfold mirrored. intros Hm Hs. rewrite Hs in Hm. cbn [truthy] in Hm.
  destruct s as [|c r]; cbn [is_empty negb] in Hm.
  - destruct Hm as [Hm _]. discriminate Hm.
  - now apply Hm.
Qed.

Lemma mirrored_null (st : State) :
  mirrored st -> sessionId st = VNull ->
  storage st !! chatSessionId = None \/ storage st !! chatSessionId = Some [].
Proof.
  unfold mirrored. intros Hm Hs. rewrite Hs in Hm. cbn [truthy] in Hm. apply Hm.
Qed.

Lemma step_paired (e : Event) (st : State) :
  convertible_event e ->
  (sessionId (step e st) = sessionId st /\ storage (step e st) = storage st)
  \/ exists v s, truthy v = true /\ to_string v = Ok s
                 /\ sessionId (step e st) = v
                 /\ storage (step e st) = <[chatSessionId := s]> (storage st).
Proof.
  intros Hc.
  destruct (step_token e st) as [H|(status & data & now & v & -> & Hv & Ht & H1 & H2)];
    [now left|].
  right. cbn [convertible_event] in Hc. destruct (Hc v Hv Ht) as [s Hs].
  rewrite Hs in H2. exists v, s. now repeat split.
Qed.

(** C10 (as the code has it). After initialization and after every event,
    storage holds the string form of the token in memory, when it has one:
    the same string when the token is a string; and when memory holds no
    token, storage holds none or the empty string.  An event whose
    [session_id], if it brings one, has a string form either leaves both
    alone or writes both, memory with the value and storage with its string
    form. *)
Theorem token_mirrored_in_storage :
  (forall value height outside children store es,
      let st := run es (init value height outside children store) in
      mirrored st
      /\ (forall s, sessionId st = VStr s -> storage st !! chatSessionId = Some s)
      /\ (sessionId st = VNull ->
          storage st !! chatSessionId = None \/ storage st !! chatSessionId = Some []))
  /\ (forall e st,
      convertible_event e ->
      (sessionId (step e st) = sessionId st /\ storage (step e st) = storage st)
      \/ exists v s, truthy v = true /\ to_string v = Ok s
                     /\ sessionId (step e st) = v
                     /\ storage (step e st) = <[chatSessionId := s]> (storage st)).
Proof.
  split; [|apply step_paired].
  intros value height outside children store es st.
  assert (Hm : mirrored st) by apply run_mirrored, init_mirrored.
  split; [exact Hm|]. split.
  - intros s. now apply mirrored_string.
  - now apply mirrored_null.
Qed.


(** ** Further properties *)

(** *** The typing indicator *)

Lemma remove_first_tidy (l : list Node) :
  tidy l ->
  match remove_first l with
  | Some l' => tidy l' /\ typing_count l = S (typing_count l')
  | None => typing_count l = O /\ no_indicator l
  end.
Proof.
  unfold tidy. induction 1 as [|k r Hk Hr IH]; [now split|].
  cbn [remove_first typing_count].
  destruct (is_typing k) eqn:Ek; [now split|].
  destruct Hk as [Hk|Hk]; [congruence|].
  rewrite (remove_in_none k Hk).
  destruct (remove_first r) as [r'|]; cbn [option_map].
  - destruct IH as [IH1 IH2]. split.
    + constructor; [now right | exact IH1].
    + cbn [typing_count]. now rewrite Ek.
  - destruct IH as [IH1 IH2]. split; [exact IH1|].
    unfold no_indicator in *. cbn [existsb]. now rewrite Hk, IH2.
Qed.

Lemma tidy_app (l1 l2 : list Node) : tidy l1 -> tidy l2 -> tidy (l1 ++ l2).
Proof. unfold tidy. intros H1 H2. apply Forall_app. now split. Qed.

Lemma tidy_none (l : list Node) : no_indicator l -> tidy l.
Proof.
  unfold tidy, no_indicator. induction l as [|k r IH]; [constructor|].
  cbn [existsb]. intros H. apply orb_false_iff in H as [Hk Hr].
  constructor; [now right | now apply IH].
Qed.

Lemma tidy_count (l : list Node) : tidy l -> typing_count l = O -> no_indicator l.
Proof.
  unfold tidy, no_indicator. induction 1 as [|k r Hk Hr IH]; [reflexivity|].
  cbn [typing_count existsb]. destruct (is_typing k) eqn:Ek; [discriminate|].
  destruct Hk as [Hk|Hk]; [congruence|]. intros H. now rewrite Hk, IH.
Qed.

Lemma without_indicator_tidy (st : State) :
  no_indicator (before st) -> tidy (chat st) ->
  before (without_indicator st) = before st
  /\ tidy (chat (without_indicator st))
  /\ typing_count (chat (without_indicator st)) = pred (typing_count (chat st)).
Proof.
  intros Hb Ht. unfold without_indicator, removeTypingIndicator, modify. cbn [snd].
  rewrite (remove_first_none _ Hb).
  pose proof (remove_first_tidy (chat st) Ht) as H.
  destruct (remove_first (chat st)) as [l|]; cbn [before chat set_chat].
  - destruct H as [H1 H2]. rewrite H2. now repeat split.
  - destruct H as [H1 H2]. rewrite H1. now repeat split.
Qed.

Lemma has_typing_bot_bubble (markup time : jsstring) :
  has_typing (bot_bubble markup time) = existsb has_typing (parse_html markup).
Proof.
  unfold bot_bubble, message_node, div. cbn.
  destruct (existsb has_typing (parse_html markup)); reflexivity.
Qed.

Lemma tidy_bot_bubble (markup time : jsstring) :
  no_indicator (parse_html markup) -> tidy [bot_bubble markup time].
Proof.
  intros H. apply tidy_none. unfold no_indicator. cbn [existsb].
  now rewrite has_typing_bot_bubble, H.
Qed.

Lemma tidy_submitted (t time : jsstring) :
  tidy [message_node user (Text t) time; typing_node].
Proof. constructor; [now right|]. constructor; [now left | constructor]. Qed.

Lemma caught_tidy (e : Exn) (now : jsstring) (st : State) :
  plain_apology ->
  no_indicator (before st) -> tidy (chat st) ->
  let st' := snd (caught e now st) in
  before st' = before st /\ tidy (chat st')
  /\ typing_count (chat st') = pred (typing_count (chat st)).
Proof.
  intros Hplain Hb Ht. cbn zeta. unfold caught.
  destruct (without_indicator_tidy (set_console (console st ++ [e]) st) Hb Ht)
    as (H1 & H2 & H3).
  cbn [before chat set_console] in H1, H3.
  destruct (marked_parse (VStr apology)) as [markup|] eqn:Em;
    cbn [snd before chat set_chat].
  - split; [exact H1|]. split.
    + apply tidy_app; [exact H2 | now apply tidy_bot_bubble, Hplain].
    + unfold bot_bubble. rewrite typing_count_app, typing_count_bot, H3. lia.
  - now repeat split.
Qed.

Lemma settle_tidy (o : Outcome) (now : jsstring) (st : State) :
  plain_apology -> plain_event (ESettle o now) ->
  no_indicator (before st) -> tidy (chat st) ->
  let st' := snd (settle o now st) in
  before st' = before st /\ tidy (chat st')
  /\ (typing_count (chat st') <= pred (typing_count (chat st)))%nat.
Proof.
  intros Hplain Hev Hb Ht. cbn zeta.
  destruct (stored_frame o st) as (Hchat & Hbefore & _).
  assert (Hb1 : no_indicator (before (stored o st))) by now rewrite Hbefore.
  assert (Ht1 : tidy (chat (stored o st))) by now rewrite Hchat.
  destruct (without_indicator_tidy (stored o st) Hb1 Ht1) as (W1 & W2 & W3).
  assert (Hb2 : no_indicator (before (without_indicator (stored o st))))
    by now rewrite W1.
  destruct (settle_shape o now st)
    as [(e & ->)|[(e & data & _ & ->)|(data & r & t & mk & time & Ho & Hr & _ & Hm & _ & ->)]].
  - destruct (caught_tidy e now (stored o st) Hplain Hb1 Ht1) as (H1 & H2 & H3).
    cbn zeta in H1, H2, H3. rewrite H1, H3, Hbefore, Hchat. split; [reflexivity|].
    split; [exact H2 | lia].
  - destruct (caught_tidy e now (without_indicator (stored o st)) Hplain Hb2 W2)
      as (H1 & H2 & H3).
    cbn zeta in H1, H2, H3. rewrite H1, H3, W1, W3, Hbefore, Hchat.
    split; [reflexivity|]. split; [exact H2 | lia].
  - cbn [snd before chat set_chat]. rewrite W1, Hbefore. split; [reflexivity|].
    split.
    + apply tidy_app; [exact W2|]. apply tidy_bot_bubble.
      destruct (awaited_parsed o data Ho) as (status & ->).
      apply (Hev r mk); [|exact Hm]. cbn [response_of]. rewrite Hr. now left.
    + unfold bot_bubble. rewrite typing_count_app, typing_count_bot, W3, Hchat. lia.
Qed.

Lemma submit_tidy (now : jsstring) (st : State) :
  plain_apology ->
  no_indicator (before st) -> tidy (chat st) ->
  let st' := snd (submit now st) in
  before st' = before st /\ tidy (chat st')
  /\ (typing_count (chat st') + inflight st <= typing_count (chat st) + inflight st')%nat.
Proof.
  intros Hplain Hb Ht. cbn zeta. rewrite submit_unfold. cbn zeta.
  destruct (is_empty (trim (input_value st)));
    [cbn [snd]; repeat split; [assumption | lia]|].
  rewrite send_unfold. cbn [sessionId shown].
  assert (Hts : tidy (chat (shown (trim (input_value st)) now st)))
    by (cbn [chat shown]; apply tidy_app; [exact Ht | apply tidy_submitted]).
  assert (Hcs : typing_count (chat (shown (trim (input_value st)) now st))
                = S (typing_count (chat st))).
  { cbn [chat shown]. rewrite typing_count_app, typing_count_submitted. lia. }
  destruct (session_field (sessionId st)) as [fields|e].
  - cbn [snd before chat inflight set_inflight set_sent]. split; [reflexivity|].
    split; [exact Hts|]. rewrite Hcs. cbn [inflight shown]. lia.
  - destruct (caught_tidy e now (shown (trim (input_value st)) now st) Hplain Hb Hts)
      as (H1 & H2 & H3).
    destruct (caught_frame e now (shown (trim (input_value st)) now st))
      as (_ & _ & _ & H4 & _).
    cbn zeta in H1, H2, H3, H4. rewrite H1, H3, H4, Hcs.
    cbn [before inflight shown]. split; [reflexivity|]. split; [exact H2 | lia].
Qed.

Lemma step_orderly (e : Event) (st : State) :
  plain_apology -> plain_event e -> orderly st -> orderly (step e st).
Proof.
  intros Hplain Hev (Hb & Ht & Hc).
  assert (Hsubmit : forall now st0,
            before st0 = before st -> chat st0 = chat st -> inflight st0 = inflight st ->
            orderly (snd (submit now st0))).
  { intros now st0 E1 E2 E3.
    assert (Hb0 : no_indicator (before st0)) by now rewrite E1.
    assert (Ht0 : tidy (chat st0)) by now rewrite E2.
    destruct (submit_tidy now st0 Hplain Hb0 Ht0) as (H1 & H2 & H3).
    cbn zeta in H1, H2, H3. unfold orderly. rewrite H1. split; [exact Hb0|].
    split; [exact H2|]. rewrite E2, E3 in H3. lia. }
  unfold step. destruct e as [v h|now|key shift now|q now|o now]; cbn [listener].
  - now repeat split.
  - now apply Hsubmit.
  - unfold on_keydown. destruct (_ && _); [now apply Hsubmit | now repeat split].
  - rewrite on_quick_unfold. now apply Hsubmit.
  - destruct (inflight st) as [|n] eqn:En;
      [cbn [snd]; unfold orderly; rewrite En; now repeat split|].
    destruct (settle_tidy o now (set_inflight n st) Hplain Hev Hb Ht) as (H1 & H2 & H3).
    destruct (settle_sent o now (set_inflight n st)) as (_ & H4 & _).
    cbn zeta in H1, H2, H3. unfold orderly. rewrite H1, H4.
    cbn [before chat inflight set_inflight] in *. split; [exact Hb|].
    split; [exact H2 | lia].
Qed.

Lemma run_orderly (es : list Event) (st : State) :
  plain_apology -> Forall plain_event es -> orderly st -> orderly (run es st).
Proof.
  intros Hplain. revert st. induction es as [|e es IH]; intros st Hes Hst; [exact Hst|].
  inversion Hes as [|? ? He Hrest]; subst.
  cbn [run fold_left]. apply IH; [exact Hrest|]. now apply step_orderly.
Qed.

(** X1. Typing indicators never outnumber the requests in flight.  On a page
    that starts without an element of id [typing-indicator], and as long as
    nothing the renderer produces carries that id, after every run of events
    the only elements with the id are children of [#chatMessages], at most
    as many as listeners waiting for a response; when none is waiting, none
    is left.  Each submission of text whose request can be made adds one
    more, also while another is still shown. *)
Theorem typing_indicators_bounded (value height : jsstring)
    (outside children : list Node) (store : gmap jsstring jsstring) (es : list Event) :
  no_indicator (outside ++ children) ->
  plain_apology ->
  Forall plain_event es ->
  let st := run es (init value height outside children store) in
  (typing_count (chat st) <= inflight st)%nat
  /\ no_indicator (before st)
  /\ (inflight st = O -> no_indicator (chat st) /\ bubbles (chat st) = chat st)
  /\ (forall now fields,
        trim (input_value st) <> [] ->
        session_field (sessionId st) = Ok fields ->
        typing_count (chat (snd (submit now st))) = S (typing_count (chat st))).
Proof.
  intros Hnone Hplain Hes st.
  apply no_indicator_app in Hnone as [Ho Hc].
  assert (H0 : orderly (init value height outside children store)).
  { unfold orderly. cbn [before chat inflight init]. split; [exact Ho|].
    split; [now apply tidy_none|].
    pose proof (remove_first_tidy children (tidy_none _ Hc)) as H.
    rewrite (remove_first_none _ Hc) in H. destruct H as [-> _]. lia. }
  destruct (run_orderly es _ Hplain Hes H0) as (Hb & Ht & Hn). fold st in Hb, Ht, Hn.
  split; [exact Hn|]. split; [exact Hb|]. split.
  - intros Hz. assert (Hnone : no_indicator (chat st)) by (apply tidy_count; [exact Ht | lia]).
    split; [exact Hnone | now apply purge_forest_none].
  - intros now fields Hne Hf.
    destruct (submit_nonblank now st Hne) as (_ & _ & _ & Hs).
    destruct (Hs fields Hf) as (_ & -> & _).
    rewrite typing_count_app, typing_count_submitted. lia.
Qed.

(** *** The bubbles *)

Lemma caught_bubbles (e : Exn) (now : jsstring) (st : State) :
  exists new, bubbles (chat (snd (caught e now st))) = bubbles (chat st) ++ new.
Proof.
  unfold caught.
  pose proof (without_indicator_bubbles (set_console (console st ++ [e]) st)) as Hw.
  cbn [chat set_console] in Hw.
  destruct (marked_parse (VStr apology)) as [markup|]; cbn [snd chat set_chat].
  - eexists. now rewrite bubbles_app, Hw.
  - exists []. now rewrite app_nil_r.
Qed.

Lemma settle_bubbles (o : Outcome) (now : jsstring) (st : State) :
  exists new, bubbles (chat (snd (settle o now st))) = bubbles (chat st) ++ new.
Proof.
  destruct (stored_frame o st) as (Hchat & _).
  pose proof (without_indicator_bubbles (stored o st)) as Hw. rewrite Hchat in Hw.
  destruct (settle_shape o now st)
    as [(e & ->)|[(e & data & _ & ->)|(data & r & t & mk & time & _ & _ & _ & _ & _ & ->)]].
  - destruct (caught_bubbles e now (stored o st)) as (new & ->). rewrite Hchat. eauto.
  - destruct (caught_bubbles e now (without_indicator (stored o st))) as (new & ->).
    rewrite Hw. eauto.
  - cbn [snd chat set_chat]. rewrite bubbles_app, Hw. eauto.
Qed.

Lemma submit_bubbles (now : jsstring) (st : State) :
  exists new, bubbles (chat (snd (submit now st))) = bubbles (chat st) ++ new.
Proof.
  rewrite submit_unfold. cbn zeta.
  destruct (is_empty (trim (input_value st))).
  - exists []. now rewrite app_nil_r.
  - rewrite send_unfold. cbn [sessionId shown].
    destruct (session_field (sessionId st)) as [fields|e].
    + cbn [snd chat set_inflight set_sent shown]. rewrite bubbles_app. eauto.
    + destruct (caught_bubbles e now (shown (trim (input_value st)) now st)) as (new & ->).
      cbn [chat shown]. rewrite bubbles_app, <- app_assoc. eauto.
Qed.

Lemma step_bubbles (e : Event) (st : State) :
  exists new, bubbles (chat (step e st)) = bubbles (chat st) ++ new.
Proof.
  unfold step. destruct e as [v h|now|key shift now|q now|o now]; cbn [listener].
  - exists []. now rewrite app_nil_r.
  - apply submit_bubbles.
  - unfold on_keydown. destruct (_ && _); [apply submit_bubbles|].
    exists []. now rewrite app_nil_r.
  - rewrite on_quick_unfold. apply (submit_bubbles now (set_input_value _ st)).
  - destruct (inflight st) as [|n]; [exists []; now rewrite app_nil_r|].
    apply (settle_bubbles o now (set_inflight n st)).
Qed.

(** X2. Bubbles are only ever appended.  Whatever events follow, the
    bubbles already in the conversation stay where they are, in the same
    order, and unchanged but for elements of id [typing-indicator] inside
    them: the only element the widget removes is one with that id. *)
Theorem bubbles_append_only (es : list Event) (st : State) :
  exists new, bubbles (chat (run es st)) = bubbles (chat st) ++ new.
Proof.
  revert st. induction es as [|e es IH]; intros st.
  - exists []. now rewrite app_nil_r.
  - cbn [run fold_left]. fold (run es (step e st)).
    destruct (IH (step e st)) as (new2 & H2).
    destruct (step_bubbles e st) as (new1 & H1).
    exists (new1 ++ new2). now rewrite H2, H1, app_assoc.
Qed.

(** What a completion appends, provided the apology can be rendered: one
    bot bubble, the reply or the apology. *)
Lemma settle_appends (o : Outcome) (now apology_html : jsstring) (st : State) :
  marked_parse (VStr apology) = Some apology_html ->
  exists l markup time,
    fst (settle o now st) = Ok tt
    /\ chat (snd (settle o now st)) = l ++ [bot_bubble markup time]
    /\ bubbles l = bubbles (chat st)
    /\ (no_indicator (before st) ->
        forall pre, no_indicator pre -> chat st = pre ++ [typing_node] -> l = pre).
Proof.
  intros Hm.
  destruct (stored_frame o st) as (Hchat & Hbefore & _).
  pose proof (without_indicator_bubbles (stored o st)) as Hw. rewrite Hchat in Hw.
  assert (Hfound : no_indicator (before st) -> forall pre, no_indicator pre ->
            chat st = pre ++ [typing_node] ->
            without_indicator (stored o st) = set_chat pre (stored o st)).
  { intros Hb pre Hp Hc.
    rewrite (without_indicator_found (stored o st) pre []).
    - now rewrite app_nil_r.
    - now rewrite Hbefore.
    - now rewrite Hchat.
    - exact Hp. }
  destruct (settle_shape o now st)
    as [(e & ->)|[(e & data & _ & ->)|(data & r & t & mk & time & _ & _ & _ & _ & _ & ->)]].
  - rewrite (caught_result e now apology_html _ Hm). cbn zeta. cbn [fst snd chat set_chat].
    eexists _, apology_html, now. split; [reflexivity|]. split; [reflexivity|]. split.
    + rewrite without_indicator_bubbles. cbn [chat set_console]. now rewrite Hchat.
    + intros Hb pre Hp Hc.
      rewrite (without_indicator_found (set_console _ (stored o st)) pre []).
      * cbn [chat set_chat]. now rewrite app_nil_r.
      * cbn [before set_console]. now rewrite Hbefore.
      * cbn [chat set_console]. now rewrite Hchat.
      * exact Hp.
  - rewrite (caught_result e now apology_html _ Hm). cbn zeta. cbn [fst snd chat set_chat].
    eexists _, apology_html, now. split; [reflexivity|]. split; [reflexivity|]. split.
    + rewrite without_indicator_bubbles. cbn [chat set_console]. exact Hw.
    + intros Hb pre Hp Hc. rewrite (Hfound Hb pre Hp Hc).
      rewrite without_indicator_none; [reflexivity| |exact Hp].
      cbn [before set_console set_chat]. now rewrite Hbefore.
  - cbn [fst snd chat set_chat].
    eexists _, mk, time. split; [reflexivity|]. split; [reflexivity|]. split.
    + exact Hw.
    + intros Hb pre Hp Hc. now rewrite (Hfound Hb pre Hp Hc).
Qed.

(** X3. Every completion is answered by exactly one bot bubble.  Provided
    the renderer accepts the apology, the completion of a request, however
    it ends, appends one bot bubble (the reply or the apology) at the end of
    the conversation and nothing else. *)
Theorem completion_appends_one_bot_bubble (o : Outcome) (now apology_html : jsstring)
    (st : State) :
  marked_parse (VStr apology) = Some apology_html ->
  exists markup time,
    bubbles (chat (snd (settle o now st)))
    = bubbles (chat st) ++ [purge (bot_bubble markup time)]
    /\ last (chat (snd (settle o now st))) = Some (bot_bubble markup time).
Proof.
  intros Hm.
  destruct (settle_appends o now apology_html st Hm) as (l & m & t & _ & Hc & Hl & _).
  exists m, t. rewrite Hc. split.
  - now rewrite bubbles_app, bubbles_bot, Hl.
  - apply last_snoc.
Qed.

(** *** Exceptions *)

Lemma submit_result (now apology_html : jsstring) (st : State) :
  marked_parse (VStr apology) = Some apology_html ->
  fst (submit now st) = Ok tt.
Proof.
  intros Hm. rewrite submit_unfold. cbn zeta.
  destruct (is_empty (trim (input_value st))); [reflexivity|].
  rewrite send_unfold. destruct (session_field _); [reflexivity|].
  now rewrite (caught_result e now apology_html _ Hm).
Qed.

(** X4. No listener lets an exception out, provided the renderer accepts
    the apology: whatever the event and the page, the listener returns
    normally, so that no failure of a request, of its body or of the
    rendering of a reply goes unhandled. *)
Theorem listeners_do_not_throw (apology_html : jsstring) :
  marked_parse (VStr apology) = Some apology_html ->
  forall e st, fst (listener e st) = Ok tt.
Proof.
  intros Hm e st.
  destruct e as [v h|now|key shift now|q now|o now]; cbn [listener].
  - reflexivity.
  - now apply (submit_result now apology_html).
  - unfold on_keydown.
    destruct (_ && _); [now apply (submit_result now apology_html) | reflexivity].
  - rewrite on_quick_unfold. now apply (submit_result now apology_html).
  - destruct (inflight st) as [|n]; [reflexivity|].
    now destruct (settle_appends o now apology_html (set_inflight n st) Hm)
      as (l & m & t & H & _).
Qed.

(** X5. When the renderer refuses the apology, a failed request ends in an
    exception that leaves the listener: the [catch] block has no guard of
    its own.  The error has been logged and the first element of the
    document with the id [typing-indicator] removed, but no bubble tells the
    user. *)
Theorem apology_refused_escapes (o : Outcome) (error : Exn) (now : jsstring) (st : State) :
  marked_parse (VStr apology) = None ->
  awaited o = Throw error ->
  settle o now st
  = (Throw MarkedThrew, without_indicator (set_console (console st ++ [error]) st))
  /\ bubbles (chat (snd (settle o now st))) = bubbles (chat st)
  /\ console (snd (settle o now st)) = console st ++ [error].
Proof.
  intros Hm Ho. rewrite settle_unfold, Ho. unfold caught. rewrite Hm. cbn [snd].
  split; [reflexivity|]. split.
  - now rewrite without_indicator_bubbles.
  - now destruct (without_indicator_frame (set_console (console st ++ [error]) st))
      as (_ & _ & _ & _ & _ & _ & _ & ->).
Qed.


(** *** The reply *)

Lemma shown_time_string (t now : jsstring) :
  t <> [] -> shown_time (VStr t) now = Ok t.
Proof. destruct t; [congruence | reflexivity]. Qed.

Lemma shown_time_falsy (timestamp : Value) (now : jsstring) :
  truthy timestamp = false -> shown_time timestamp now = Ok now.
Proof.
  intros Hf. unfold shown_time, or_else.
  destruct timestamp; cbn [truthy] in *; try rewrite Hf; try reflexivity; discriminate.
Qed.

(** X6. A response that can be rendered, whose [session_id] (if it has one)
    and [timestamp] have a string form: the token of the response is stored
    first, the first element of id [typing-indicator] is removed, and one
    bot bubble with the rendered [response] is appended; its time is the
    [timestamp] of the response when that is a non-empty string, the local
    time when it is absent, [null] or empty.  Nothing is logged. *)
Theorem reply_rendered (status : N) (data session_id response timestamp : Value)
    (markup time now : jsstring) (st : State) :
  get_property data (js "session_id") = Ok session_id ->
  get_property data (js "response") = Ok response ->
  get_property data (js "timestamp") = Ok timestamp ->
  marked_parse response = Some markup ->
  (truthy session_id = true -> convertible session_id) ->
  shown_time timestamp now = Ok time ->
  let st1 := without_indicator (snd (store_token session_id st)) in
  settle (Resolved status (Parsed data)) now st
  = (Ok tt, set_chat (chat st1 ++ [bot_bubble markup time]) st1)
  /\ console st1 = console st
  /\ (forall t, timestamp = VStr t -> t <> [] -> time = t)
  /\ (truthy timestamp = false -> time = now)
  /\ (forall s, truthy session_id = true -> to_string session_id = Ok s ->
        sessionId st1 = session_id
        /\ storage st1 = <[chatSessionId := s]> (storage st))
  /\ (truthy session_id = false ->
        sessionId st1 = sessionId st /\ storage st1 = storage st).
Proof.
  intros Hs Hr Ht Hm Hconv Htime st1. subst st1.
  destruct (without_indicator_frame (snd (store_token session_id st)))
    as (_ & _ & _ & W1 & W2 & _ & _ & W3).
  rewrite W1, W2, W3.
  split; [|split; [|split; [|split; [|split]]]].
  - rewrite settle_unfold. cbn [awaited]. rewrite Hs, Hr, Ht. cbn zeta.
    rewrite Hm, Htime. unfold store_token.
    destruct (truthy session_id); [|reflexivity].
    destruct (Hconv eq_refl) as [s ->]. reflexivity.
  - now destruct (store_token_chat session_id st) as (_ & _ & _ & _ & -> & _).
  - intros t -> Hne. rewrite (shown_time_string t now Hne) in Htime. congruence.
  - intros Hf. rewrite (shown_time_falsy timestamp now Hf) in Htime. congruence.
  - intros s Htr Hstr. unfold store_token. now rewrite Htr, Hstr.
  - intros Hf. unfold store_token. now rewrite Hf.
Qed.



(** *** The requests *)

Lemma session_field_shape (sid : Value) (fields : list (jsstring * jsstring)) :
  session_field sid = Ok fields ->
  fields = [] \/ exists tok, fields = [(js "session_id", tok)].
Proof.
  unfold session_field. destruct (truthy sid).
  - destruct (to_string sid) as [s|e]; [|discriminate].
    intros H. injection H as <-. right. eauto.
  - intros H. injection H as <-. now left.
Qed.

Lemma request_of_well_formed (message : jsstring) (sid : Value)
    (fields : list (jsstring * jsstring)) :
  message <> [] -> trimmed message -> session_field sid = Ok fields ->
  well_formed_request (request_of message fields).
Proof.
  intros Hne Ht Hf. split; [reflexivity|]. split; [reflexivity|].
  exists (to_usv message). split; [now rewrite to_usv_nil|].
  split; [now apply to_usv_trimmed|].
  unfold request_of. cbn [req_body].
  destruct (session_field_shape sid fields Hf) as [->|[tok ->]]; [now left|].
  right. now exists tok.
Qed.

(** X8. Every request the widget ever makes is a POST to [/api/chat] whose
    form holds a [user_input] that is non-empty and carries no white space
    at either end, alone or followed by exactly one [session_id]. *)
Theorem requests_well_formed (value height : jsstring) (outside children : list Node)
    (store : gmap jsstring jsstring) (es : list Event) :
  Forall well_formed_request (sent (run es (init value height outside children store))).
Proof.
  assert (H0 : Forall well_formed_request
                 (sent (init value height outside children store)))
    by constructor.
  revert H0. generalize (init value height outside children store).
  induction es as [|e es IH]; intros st Hst; [exact Hst|].
  cbn [run fold_left]. apply IH.
  destruct (step_sent e st) as [->|(m & fields & Hne & Ht & Hf & ->)]; [exact Hst|].
  apply Forall_app. split; [exact Hst|].
  constructor; [|constructor]. now apply (request_of_well_formed m (sessionId st)).
Qed.

Lemma user_input_of_request (message : jsstring) (fields : list (jsstring * jsstring)) :
  user_input_of (request_of message fields) = Some (to_usv message).
Proof. reflexivity. Qed.

Lemma convertible_field (sid : Value) :
  convertible sid -> exists fields, session_field sid = Ok fields.
Proof.
  intros [s Hs]. unfold session_field. rewrite Hs. destruct (truthy sid); eauto.
Qed.

Lemma step_convertible (e : Event) (st : State) :
  convertible_event e -> convertible (sessionId st) -> convertible (sessionId (step e st)).
Proof.
  intros He Hc.
  destruct (step_token e st) as [[-> _]|(status & data & now & v & -> & Hv & Ht & -> & _)];
    [exact Hc|].
  exact (He v Hv Ht).
Qed.

Lemma step_shown_sent (e : Event) (st : State) :
  convertible (sessionId st) ->
  (user_texts (chat (step e st)) = user_texts (chat st) /\ sent (step e st) = sent st)
  \/ exists t fields,
       user_texts (chat (step e st)) = user_texts (chat st) ++ [t]
       /\ sent (step e st) = sent st ++ [request_of t fields].
Proof.
  intros Hc.
  assert (Hsubmit : forall now st0,
            chat st0 = chat st -> sent st0 = sent st -> sessionId st0 = sessionId st ->
            (user_texts (chat (snd (submit now st0))) = user_texts (chat st)
             /\ sent (snd (submit now st0)) = sent st)
            \/ exists t fields,
                 user_texts (chat (snd (submit now st0))) = user_texts (chat st) ++ [t]
                 /\ sent (snd (submit now st0)) = sent st ++ [request_of t fields]).
  { intros now st0 E1 E2 E3.
    destruct (trim (input_value st0)) as [|c r] eqn:Et.
    - left. rewrite (submit_blank now st0); [|now apply trim_nil].
      cbn [snd]. now rewrite E1, E2.
    - right. assert (Hne : trim (input_value st0) <> []) by now rewrite Et.
      destruct (submit_nonblank now st0 Hne) as (Hu & _ & _ & Hs).
      rewrite <- E3 in Hc. destruct (convertible_field _ Hc) as [fields Hf].
      destruct (Hs fields Hf) as (_ & _ & _ & Hsent).
      exists (trim (input_value st0)), fields. rewrite <- E1, <- E2. now split. }
  unfold step. destruct e as [v h|now|key shift now|q now|o now]; cbn [listener].
  - left. now split.
  - now apply Hsubmit.
  - unfold on_keydown. destruct (_ && _); [now apply Hsubmit | left; now split].
  - rewrite on_quick_unfold. now apply Hsubmit.
  - left. destruct (inflight st) as [|n]; [now split|].
    rewrite settle_user_texts.
    now destruct (settle_sent o now (set_inflight n st)) as (-> & _).
Qed.

(** X9. What is shown is what was sent, as long as every [session_id] the
    server issued has a string form.  After every run of events, the texts
    of the user bubbles added since the page was loaded are, in order and
    converted to scalar-value strings as a form carries them, the
    [user_input] fields of the requests made: each shown message went out
    exactly once, and nothing went out that is not shown. *)
Theorem shown_is_sent (value height : jsstring) (outside children : list Node)
    (store : gmap jsstring jsstring) (es : list Event) :
  Forall convertible_event es ->
  let st := run es (init value height outside children store) in
  map to_usv (user_texts (chat st))
  = map to_usv (user_texts children) ++ omap user_input_of (sent st).
Proof.
  intros Hes. cbn zeta.
  assert (H0 : convertible (sessionId (init value height outside children store))
               /\ map to_usv (user_texts (chat (init value height outside children store)))
                  = map to_usv (user_texts children)
                    ++ omap user_input_of (sent (init value height outside children store))).
  { cbn [chat sent sessionId init]. split; [|now rewrite app_nil_r].
    unfold getItem, or_else.
    destruct (store !! chatSessionId) as [s|]; [|now exists (js "null")].
    cbn [truthy]. destruct s; cbn; [now exists (js "null") | eexists; reflexivity]. }
  revert H0. generalize (init value height outside children store).
  induction es as [|e es IH]; intros st [Hc Hst]; [exact Hst|].
  inversion Hes as [|? ? He Hrest]; subst.
  cbn [run fold_left]. apply IH; [exact Hrest|].
  split; [now apply step_convertible|].
  destruct (step_shown_sent e st Hc) as [[-> ->]|(t & fields & -> & ->)]; [exact Hst|].
  rewrite map_app, omap_app, Hst, <- app_assoc. reflexivity.
Qed.

(** *** The storage *)

Lemma step_storage_frame (e : Event) (st : State) :
  (forall k, k <> chatSessionId -> storage (step e st) !! k = storage st !! k)
  /\ (truthy (sessionId st) = true -> truthy (sessionId (step e st)) = true)
  /\ (is_Some (storage st !! chatSessionId) ->
      is_Some (storage (step e st) !! chatSessionId)).
Proof.
  destruct (step_token e st) as [[-> ->]|(status & data & now & v & _ & _ & Ht & -> & Hs)];
    [repeat split; auto|].
  destruct (to_string v) as [s|err]; rewrite Hs.
  - split; [|split].
    + intros k Hk. now apply lookup_insert_ne.
    + intros _. exact Ht.
    + intros _. rewrite lookup_insert_eq. eauto.
  - split; [|split]; auto.
Qed.

(** X10. The widget owns one key of the storage and never gives its token
    up.  Whatever events occur, every other key of [localStorage] keeps its
    value; a token held in memory is never reset to none; and an entry under
    [chatSessionId] is never removed. *)
Theorem storage_frame (es : list Event) (st : State) :
  (forall k, k <> chatSessionId -> storage (run es st) !! k = storage st !! k)
  /\ (truthy (sessionId st) = true -> truthy (sessionId (run es st)) = true)
  /\ (is_Some (storage st !! chatSessionId) ->
      is_Some (storage (run es st) !! chatSessionId)).
Proof.
  revert st. induction es as [|e es IH]; intros st; [repeat split; auto|].
  cbn [run fold_left]. fold (run es (step e st)).
  destruct (IH (step e st)) as (H1 & H2 & H3).
  destruct (step_storage_frame e st) as (G1 & G2 & G3).
  split; [|split].
  - intros k Hk. now rewrite H1, G1.
  - auto.
  - auto.
Qed.

(** X11. The token survives a reload.  When the token in memory is a string
    (or none), a page loaded over the storage that this page leaves starts
    with the same token, and so continues the same session. *)
Theorem token_survives_reload (value height : jsstring) (outside children : list Node)
    (store : gmap jsstring jsstring) (es : list Event)
    (value' height' : jsstring) (outside' children' : list Node) :
  let st := run es (init value height outside children store) in
  (sessionId st = VNull \/ exists s, sessionId st = VStr s) ->
  sessionId (reload value' height' outside' children' st) = sessionId st
  /\ storage (reload value' height' outside' children' st) = storage st.
Proof.
  intros st Hs.
  assert (Hm : mirrored st) by apply run_mirrored, init_mirrored.
  split; [|reflexivity].
  unfold reload, init, getItem, or_else. cbn [sessionId].
  destruct Hs as [Hn|[s Hv]].
  - destruct (mirrored_null st Hm Hn) as [-> | ->]; now rewrite Hn.
  - rewrite (mirrored_string st s Hm Hv), Hv. cbn [truthy].
    destruct s as [|c r]; [|reflexivity].
    unfold mirrored in Hm. rewrite Hv in Hm. cbn in Hm. destruct Hm as [Hm _].
    discriminate Hm.
Qed.

(** *** The input field *)

Lemma without_indicator_send_disabled (b : bool) (st : State) :
  without_indicator (set_send_disabled b st)
  = set_send_disabled b (without_indicator st).
Proof.
  unfold without_indicator, removeTypingIndicator, modify. cbn [snd before chat
    set_send_disabled].
  destruct (remove_first (before st)); [reflexivity|].
  destruct (remove_first (chat st)); reflexivity.
Qed.

Lemma caught_send_disabled (b : bool) (e : Exn) (now : jsstring) (st : State) :
  caught e now (set_send_disabled b st)
  = (fst (caught e now st), set_send_disabled b (snd (caught e now st))).
Proof.
  unfold caught.
  change (set_console (console (set_send_disabled b st) ++ [e]) (set_send_disabled b st))
    with (set_send_disabled b (set_console (console st ++ [e]) st)).
  rewrite without_indicator_send_disabled.
  destruct (marked_parse (VStr apology)); reflexivity.
Qed.

(** The submission does not consult the send button. *)
Lemma submit_send_disabled (b : bool) (now : jsstring) (st : State) :
  submit now (set_send_disabled b st)
  = (fst (submit now st), set_send_disabled b (snd (submit now st))).
Proof.
  rewrite !submit_unfold. cbn zeta. cbn [input_value set_send_disabled].
  destruct (is_empty (trim (input_value st))); [reflexivity|].
  rewrite !send_unfold.
  change (shown (trim (input_value st)) now (set_send_disabled b st))
    with (set_send_disabled b (shown (trim (input_value st)) now st)).
  cbn [sessionId set_send_disabled].
  destruct (session_field _); [reflexivity|].
  apply caught_send_disabled.
Qed.

(** The submission does not consult the height of the field. *)
Lemma submit_input_height (h : jsstring) (now : jsstring) (st : State) :
  let a := snd (submit now (set_input_height h st)) in
  let b := snd (submit now st) in
  chat a = chat b /\ sessionId a = sessionId b /\ storage a = storage b
  /\ sent a = sent b /\ inflight a = inflight b /\ console a = console b
  /\ input_value a = input_value b /\ before a = before b
  /\ send_disabled a = send_disabled b.
Proof.
  cbn zeta. rewrite !submit_unfold. cbn zeta. cbn [input_value set_input_height].
  destruct (is_empty (trim (input_value st))); repeat split.
Qed.

(** X12. The send button follows the input only while the user types.  After
    an [input] event it is disabled exactly when the text is blank; but a
    submission empties the field from script, which fires no [input] event,
    and so leaves the button enabled over an empty field. *)
Theorem send_button_follows_typing_only (v now : jsstring) (h : N) (st : State) :
  (send_disabled (step (EInput v h) st) = true <-> forallb is_space v = true)
  /\ (trim v <> [] ->
      let st' := run [EInput v h; ESubmit now] st in
      input_value st' = [] /\ send_disabled st' = false).
Proof.
  split.
  - unfold step. cbn [listener]. unfold on_input. run_monad.
    cbn [snd send_disabled set_send_disabled]. rewrite <- trim_nil.
    destruct (trim v); cbn [is_empty]; split; congruence.
  - intros Hne st'. subst st'.
    assert (Hv : input_value (step (EInput v h) st) = v) by reflexivity.
    assert (Hd : send_disabled (step (EInput v h) st) = false).
    { unfold step. cbn [listener]. unfold on_input. run_monad.
      cbn [snd send_disabled set_send_disabled].
      destruct (trim v); [congruence | reflexivity]. }
    change (run [EInput v h; ESubmit now] st)
      with (snd (submit now (step (EInput v h) st))).
    revert Hv Hd. generalize (step (EInput v h) st). intros st1 Hv Hd.
    rewrite submit_unfold. cbn zeta. rewrite Hv.
    destruct (trim v) as [|c r] eqn:Et; [congruence|]. cbn [is_empty].
    destruct (send_frame (c :: r) now (shown (c :: r) now st1))
      as (_ & _ & H1 & _ & H2).
    rewrite H1, H2. cbn [input_value send_disabled shown]. now split.
Qed.

(** X13. A quick question discards the draft.  The click replaces whatever
    the user had typed: the outcome does not depend on the previous content
    of the field.  A button without [data-question] empties the field and
    sends nothing. *)
Theorem quick_question_discards_draft (q : option jsstring) (now v : jsstring) (st : State) :
  on_quick q now (set_input_value v st) = on_quick q now st
  /\ on_quick None now st = (Ok tt, set_input_value [] st).
Proof.
  split.
  - rewrite !on_quick_unfold. reflexivity.
  - rewrite on_quick_unfold. now apply submit_blank.
Qed.

(** X14. The Enter key.  Enter without Shift runs the submission, and does
    so whether or not the send button is disabled, since the submission does
    not consult the button; Enter with Shift, or any other key, changes
    nothing on the page. *)
Theorem enter_key_submits (key now : jsstring) (shiftKey : bool) (st : State) :
  (key = js "Enter" -> shiftKey = false ->
   listener (EKeydown key shiftKey now) st = submit now st)
  /\ (key <> js "Enter" \/ shiftKey = true ->
      listener (EKeydown key shiftKey now) st = (Ok tt, st))
  /\ (forall b,
      submit now (set_send_disabled b st)
      = (fst (submit now st), set_send_disabled b (snd (submit now st)))).
Proof.
  split; [|split].
  - intros -> ->. reflexivity.
  - intros H. cbn [listener]. unfold on_keydown.
    destruct (bool_decide (key = js "Enter")) eqn:Ek; [|reflexivity].
    apply bool_decide_eq_true in Ek.
    destruct H as [H| ->]; [contradiction | reflexivity].
  - intros b. apply submit_send_disabled.
Qed.

(** *** The log *)

Lemma last_caught (e : Exn) (now apology_html : jsstring) (st : State) :
  marked_parse (VStr apology) = Some apology_html ->
  console (snd (caught e now st)) = console st ++ [e]
  /\ last (chat (snd (caught e now st))) = Some (bot_bubble apology_html now).
Proof.
  intros Hm. split; [apply caught_console|].
  rewrite (caught_result e now apology_html st Hm). cbn zeta. cbn [snd chat set_chat].
  apply last_snoc.
Qed.

(** X15. An apology is shown exactly when an error is logged.  Provided the
    renderer accepts the apology, the completion of a request does one of
    two things: it shows the rendered [response] of a parsed body and logs
    nothing, or it logs exactly one error and shows the apology with the
    local time. *)
Theorem apology_iff_logged (o : Outcome) (now apology_html : jsstring) (st : State) :
  marked_parse (VStr apology) = Some apology_html ->
  let st' := snd (settle o now st) in
  (exists data response timestamp markup time,
      awaited o = Ok data
      /\ get_property data (js "response") = Ok response
      /\ get_property data (js "timestamp") = Ok timestamp
      /\ marked_parse response = Some markup
      /\ shown_time timestamp now = Ok time
      /\ console st' = console st
      /\ last (chat st') = Some (bot_bubble markup time))
  \/ (exists error,
        console st' = console st ++ [error]
        /\ last (chat st') = Some (bot_bubble apology_html now)).
Proof.
  intros Hm st'. subst st'.
  destruct (stored_frame o st) as (_ & _ & _ & _ & Hcon & _).
  destruct (without_indicator_frame (stored o st)) as (_ & _ & _ & _ & _ & _ & _ & Wcon).
  destruct (settle_shape o now st)
    as [(e & ->)|[(e & data & _ & ->)
                 |(data & r & t & mk & time & Ho & Hr & Ht & Hmr & Htime & ->)]].
  - right. exists e. destruct (last_caught e now apology_html (stored o st) Hm) as [-> ->].
    now rewrite Hcon.
  - right. exists e.
    destruct (last_caught e now apology_html (without_indicator (stored o st)) Hm)
      as [-> ->].
    now rewrite Wcon, Hcon.
  - left. exists data, r, t, mk, time. cbn [snd console chat set_chat].
    rewrite Wcon, Hcon. repeat split; try assumption. apply last_snoc.
Qed.

(** X16. A quick question against the same text typed by the user and sent:
    the bubbles, the token, the storage, the requests and the input field
    end up the same (the click does not fire [input], so the send button
    and, for blank text, the height of the field may differ). *)
Theorem quick_question_like_typing (p now : jsstring) (h : N) (st : State) :
  normalize_newlines p = p ->
  let a := step (EQuick (Some p) now) st in
  let b := run [EInput p h; ESubmit now] st in
  chat a = chat b /\ sessionId a = sessionId b /\ storage a = storage b
  /\ sent a = sent b /\ inflight a = inflight b /\ console a = console b
  /\ input_value a = input_value b.
Proof.
  intros Hp a b. subst a b. unfold run. cbn [fold_left]. unfold step.
  cbn [listener]. rewrite on_quick_unfold, <- normalize_newlines_spec, Hp.
  unfold on_input. run_monad. cbn [snd].
  rewrite submit_send_disabled. cbn [snd chat sessionId storage sent inflight console
    input_value set_send_disabled].
  destruct (submit_input_height (js_of_N (N.min h 120) ++ js "px") now
              (set_input_value p st)) as (H1 & H2 & H3 & H4 & H5 & H6 & H7 & _).
  cbn zeta in H1, H2, H3, H4, H5, H6, H7.
  repeat split; symmetry; assumption.
Qed.

(** *** One exchange *)

Lemma no_indicator_count (l : list Node) : no_indicator l -> typing_count l = O.
Proof.
  intros H. pose proof (remove_first_tidy l (tidy_none l H)) as Ht.
  rewrite (remove_first_none l H) in Ht. apply Ht.
Qed.

Lemma no_indicator_user_bubble (l : list Node) (t time : jsstring) :
  no_indicator l -> no_indicator (l ++ [message_node user (Text t) time]).
Proof. intros H. apply no_indicator_app. now split. Qed.

(** X17. One exchange, start to end.  On a page without an element of id
    [typing-indicator], a submission of text whose request can be made,
    followed by the completion of that request, however it ends, leaves the
    conversation longer by exactly two bubbles, the user's trimmed text and
    one bot bubble, and shows no typing indicator any more (provided the
    renderer accepts the apology). *)
Theorem one_exchange (o : Outcome) (now now' apology_html : jsstring)
    (fields : list (jsstring * jsstring)) (st : State) :
  no_indicator (before st) ->
  no_indicator (chat st) ->
  trim (input_value st) <> [] ->
  session_field (sessionId st) = Ok fields ->
  marked_parse (VStr apology) = Some apology_html ->
  let st' := snd (settle o now' (snd (submit now st))) in
  typing_count (chat st') = O
  /\ exists markup time,
       chat st' = chat st ++ [message_node user (Text (trim (input_value st))) now;
                              bot_bubble markup time].
Proof.
  intros Hb Hc Hne Hf Hm st'. subst st'.
  assert (Hsub : chat (snd (submit now st))
                 = (chat st ++ [message_node user (Text (trim (input_value st))) now])
                   ++ [typing_node]
                 /\ before (snd (submit now st)) = before st).
  { rewrite submit_unfold. cbn zeta.
    destruct (trim (input_value st)) as [|c r]; [congruence|]. cbn [is_empty].
    rewrite send_unfold. cbn [sessionId shown]. rewrite Hf.
    cbn [snd chat before set_inflight set_sent]. now rewrite <- app_assoc. }
  destruct Hsub as [Hchat Hbefore].
  destruct (settle_appends o now' apology_html (snd (submit now st)) Hm)
    as (l & m & t & _ & Hs & _ & Hl).
  rewrite Hbefore in Hl.
  rewrite Hs, (Hl Hb _ (no_indicator_user_bubble _ _ _ Hc) Hchat). split.
  - unfold bot_bubble.
    rewrite !typing_count_app, typing_count_bot, (no_indicator_count _ Hc). reflexivity.
  - exists m, t. now rewrite <- app_assoc.
Qed.

Lemma remove_first_inside (pre post : list Node) (n n' : Node) :
  no_indicator pre -> is_typing n = false -> remove_in n = Some n' ->
  remove_first (pre ++ n :: post) = Some (pre ++ n' :: post).
Proof.
  unfold no_indicator. intros Hp Hn Hr. induction pre as [|k r IH].
  - cbn [app remove_first]. now rewrite Hn, Hr.
  - cbn [existsb] in Hp. apply orb_false_iff in Hp as [Hk Hrest].
    cbn [app remove_first].
    rewrite (has_typing_top k Hk), (remove_in_none k Hk), (IH Hrest). reflexivity.
Qed.

(** X18. The indicator is looked up by its id in the whole document, and
    the first element found is the one removed.  When a bubble that comes
    before the typing indicator holds an element with the id
    [typing-indicator] (from the markup of a reply, for instance),
    [removeTypingIndicator] takes that element out of the bubble and the
    typing indicator stays where it is. *)
Theorem stray_indicator_shadows_placeholder (pre post : list Node) (n n' : Node)
    (st : State) :
  no_indicator (before st) ->
  no_indicator pre ->
  is_typing n = false ->
  remove_in n = Some n' ->
  chat st = pre ++ n :: post ->
  snd (removeTypingIndicator st) = set_chat (pre ++ n' :: post) st
  /\ typing_count (chat (snd (removeTypingIndicator st))) = typing_count (chat st).
Proof.
  intros Hb Hp Hn Hr Hc.
  assert (H : snd (removeTypingIndicator st) = set_chat (pre ++ n' :: post) st).
  { unfold removeTypingIndicator, modify. cbn [snd].
    now rewrite (remove_first_none _ Hb), Hc, (remove_first_inside pre post n n' Hp Hn Hr). }
  split; [exact H|]. rewrite H, Hc. cbn [chat set_chat].
  rewrite !typing_count_app. cbn [typing_count].
  now rewrite (remove_in_id n n' Hr).
Qed.

End Properties.

(** ** The listeners on sample pages *)

(** First submission with nothing stored: one user bubble with the trimmed
    text, the typing indicator, and a request without [session_id]. *)
Example first_submission :
  chat asked_page = [message_node user (Text (js "hi")) (js "10:00 AM"); typing_node]
  /\ sent asked_page
     = [{| req_url := js "/api/chat"; req_method := js "POST";
           req_body := [(js "user_input", js "hi")] |}]
  /\ input_value asked_page = []
  /\ input_height asked_page = js "auto".
Proof. vm_compute. repeat split. Qed.

(** The response opens the session: the token is in memory and in storage,
    the typing indicator is gone, the reply carries the server's time. *)
Example first_response :
  sessionId answered_page = VStr (js "abc123")
  /\ storage answered_page !! chatSessionId = Some (js "abc123")
  /\ chat answered_page
     = [message_node user (Text (js "hi")) (js "10:00 AM");
        message_node bot
          (Html (js "<p>hello</p>" ++ [10%N]) [Elem (js "p") [] [] (Text (js "hello"))])
          (js "10:00 AM")].
Proof. vm_compute. repeat split. Qed.

(** The second submission carries the token. *)
Example second_submission :
  last (sent asked_again_page)
  = Some {| req_url := js "/api/chat"; req_method := js "POST";
            req_body := [(js "user_input", js "more");
                         (js "session_id", js "abc123")] |}.
Proof. vm_compute. reflexivity. Qed.

(** A body without [response]: the renderer throws on [undefined], and the
    apology is shown although the token of the body has been stored. *)
Example response_without_text :
  let st' := snd (settle_sample (Resolved 200 (Parsed reply_session_only)) (js "10:03 AM")
                    asked_again_page) in
  sessionId st' = VStr (js "zzz")
  /\ console st' = [MarkedThrew]
  /\ last (chat st') = Some (@bot_bubble integer_engine apology_markup (js "10:03 AM")).
Proof. vm_compute. repeat split. Qed.

(** The height of the input field follows the text, up to 120 pixels, and
    the send button is enabled by text that is not blank. *)
Example input_resized :
  input_height (run_sample [EInput (js "a long question") 300] fresh_page) = js "120px"
  /\ send_disabled (run_sample [EInput (js "a long question") 300] fresh_page) = false
  /\ send_disabled (run_sample [EInput (js "   ") 24] fresh_page) = true.
Proof. vm_compute. repeat split. Qed.

(** A token without a string form: memory holds it, storage does not, and
    the error is logged.  The next question is shown and answered by the
    apology, and no request is made for it. *)
Example token_without_string_form :
  sessionId object_token_page = VObj [(js "toString", @VNum integer_engine 1%Z)]
  /\ storage object_token_page !! chatSessionId = None
  /\ console object_token_page = [NotPrimitive]
  /\ sent object_token_next_page = sent object_token_page
  /\ user_texts (chat object_token_next_page) = [js "hi"; js "more"]
  /\ last (chat object_token_next_page)
     = Some (@bot_bubble integer_engine apology_markup (js "10:02 AM")).
Proof. vm_compute. repeat split. Qed.

(** A field given a text with Windows line breaks holds it with line feeds
    only. *)
Example quick_question_line_breaks :
  input_value (run_sample [EQuick (Some [32; 13; 10; 32]%N) (js "10:00 AM")] fresh_page)
  = [32; 10; 32]%N.
Proof. vm_compute. reflexivity. Qed.

(** ** The claims on sample pages *)

Lemma submit_blank_is_noop_witness :
  submit_sample (js "10:00 AM") (populate [32; 9; 160; 32]%N fresh_page)
  = (Ok tt, populate [32; 9; 160; 32]%N fresh_page).
Proof.
  apply (@submit_blank_is_noop integer_engine paragraph_marked). reflexivity.
Defined.

Lemma submit_appends_user_bubble_witness :
  user_texts (chat (snd (submit_sample (js "10:00 AM") typed_page)))
  = user_texts (chat typed_page) ++ [trim (input_value typed_page)]
  /\ inflight (snd (submit_sample (js "10:00 AM") typed_page)) = S (inflight typed_page).
Proof.
  assert (Hne : trim (input_value typed_page) <> []) by (vm_compute; discriminate).
  destruct (@submit_appends_user_bubble integer_engine paragraph_marked
              (js "10:00 AM") typed_page Hne) as (Hu & _ & _ & Hs).
  destruct (Hs [] eq_refl) as (_ & _ & Hi & _).
  split; [exact Hu | exact Hi].
Defined.

Lemma rendering_rule_witness :
  content_at (js "message-text")
    (message_node user (Text (js "<b>hi</b>")) (js "10:00 AM"))
  = Some (Text (js "<b>hi</b>"))
  /\ content_at (js "message-text")
       (@bot_bubble integer_engine (js "<p>hello</p>" ++ [10%N]) (js "10:00 AM"))
     = Some (Html (js "<p>hello</p>" ++ [10%N])
               (@parse_html integer_engine (js "<p>hello</p>" ++ [10%N])))
  /\ forall m,
       In m (markups (chat (run_sample two_questions fresh_page))) ->
       In m (markups (chat fresh_page)) \/ m = typing_markup
       \/ exists v, In v (@rendered_sources integer_engine two_questions)
                    /\ paragraph_marked v = Some m.
Proof.
  destruct (@rendering_rule integer_engine paragraph_marked)
    as (Huser & Hbot & _ & Hrun & _).
  destruct (Huser (js "10:00 AM") (js "<b>hi</b>") VUndef (js "10:00 AM") fresh_page
              eq_refl) as (_ & _ & Hu & _).
  destruct (Hbot (js "10:01 AM") (VStr (js "hello")) (VStr (js "10:00 AM"))
              (js "<p>hello</p>" ++ [10%N]) (js "10:00 AM") asked_page
              eq_refl eq_refl) as (_ & _ & Hb & _).
  split; [exact Hu|]. split; [exact Hb|].
  intros m. apply Hrun.
Defined.

Lemma response_without_session_id_witness :
  let st' := snd (settle_sample (Resolved 200 (Parsed reply_plain)) (js "10:03 AM")
                    asked_again_page) in
  sessionId st' = sessionId asked_again_page
  /\ exists r,
       sent (snd (submit_sample (js "10:04 AM") (set_input_value (js " why ") st')))
       = sent st' ++ [r]
       /\ req_body r = [(js "user_input", to_usv (trim (js " why ")));
                        (js "session_id", to_usv (js "abc123"))].
Proof.
  destruct (@response_without_session_id integer_engine paragraph_marked
              200%N reply_plain (js "10:03 AM") asked_again_page)
    as (H & _ & Hnext & _).
  - intros v Hv.
    exact (eq_sym (f_equal (fun r => match r with Ok x => x | Throw _ => VUndef end) Hv)).
  - split; [exact H|].
    destruct (Hnext (js " why ") (js "10:04 AM") (js "abc123")) as (r & Hr & Hb & _).
    + vm_compute. discriminate.
    + vm_compute. reflexivity.
    + discriminate.
    + exists r. split; [exact Hr | exact Hb].
Defined.

Lemma quick_question_is_populate_then_submit_witness :
  user_texts (chat (@step integer_engine paragraph_marked
                      (EQuick (Some (js " hi ")) (js "10:00 AM")) fresh_page))
  = user_texts (chat fresh_page) ++ [trim (field_content (js " hi "))]
  /\ field_content (js " hi ") = js " hi ".
Proof.
  destruct (@quick_question_is_populate_then_submit integer_engine paragraph_marked
              (js " hi ") (js "10:00 AM") fresh_page) as (_ & _ & Hne & Hplain).
  split.
  - apply Hne. vm_compute. discriminate.
  - apply Hplain. repeat constructor; discriminate.
Defined.

Lemma empty_session_id_is_absent_witness :
  settle_sample (Resolved 200 (Parsed reply_empty_session)) (js "10:03 AM") asked_again_page
  = settle_sample (Resolved 200 (Parsed reply_plain)) (js "10:03 AM") asked_again_page.
Proof.
  apply (proj1 (@empty_session_id_is_absent integer_engine paragraph_marked));
    reflexivity.
Defined.

Lemma transport_failure_caught_witness :
  chat (snd (settle_sample Rejected (js "10:01 AM") asked_page))
  = [message_node user (Text (js "hi")) (js "10:00 AM")] ++ []
    ++ [@bot_bubble integer_engine apology_markup (js "10:01 AM")].
Proof.
  destruct (@transport_failure_caught integer_engine paragraph_marked
              Rejected (js "10:01 AM") apology_markup asked_page)
    as (_ & _ & _ & _ & H & _).
  - left. reflexivity.
  - reflexivity.
  - apply H; reflexivity.
Defined.


Lemma session_id_stored_and_sent_witness :
  sessionId (snd (settle_sample (Resolved 200 (Parsed reply_abc123)) (js "10:01 AM")
                    (set_inflight 0 asked_page)))
  = VStr (js "abc123")
  /\ storage (snd (settle_sample (Resolved 200 (Parsed reply_abc123)) (js "10:01 AM")
                     (set_inflight 0 asked_page))) !! chatSessionId
     = Some (js "abc123").
Proof.
  destruct (@session_id_stored_and_sent integer_engine paragraph_marked
              200%N reply_abc123 (js "abc123") (js "10:01 AM")
              (set_inflight 0 asked_page)) as (H1 & H2 & _).
  - reflexivity.
  - discriminate.
  - reflexivity.
  - split; [exact H1 | exact H2].
Defined.

Lemma token_mirrored_in_storage_witness :
  mirrored (run_sample two_questions fresh_page)
  /\ ((sessionId (@step integer_engine paragraph_marked
                    (ESettle (Resolved 200 (Parsed reply_abc123)) (js "10:01 AM"))
                    asked_page)
       = sessionId asked_page
       /\ storage (@step integer_engine paragraph_marked
                     (ESettle (Resolved 200 (Parsed reply_abc123)) (js "10:01 AM"))
                     asked_page)
          = storage asked_page)
      \/ exists v s,
           truthy v = true /\ to_string v = Ok s
           /\ sessionId (@step integer_engine paragraph_marked
                           (ESettle (Resolved 200 (Parsed reply_abc123)) (js "10:01 AM"))
                           asked_page)
              = v
           /\ storage (@step integer_engine paragraph_marked
                         (ESettle (Resolved 200 (Parsed reply_abc123)) (js "10:01 AM"))
                         asked_page)
              = <[chatSessionId := s]> (storage asked_page)).
Proof.
  destruct (@token_mirrored_in_storage integer_engine paragraph_marked) as [Hrun Hstep].
  split.
  - exact (proj1 (Hrun [] [] [] [] ∅ two_questions)).
  - apply Hstep. intros v Hv _. exists (js "abc123").
    exact (eq_sym (f_equal (fun r => match r with
                                     | Ok x => to_string x
                                     | Throw e => Throw e
                                     end) Hv)).
Defined.

(** C1, as stated, fails for the empty string: the response carries
    [session_id = ""], and afterwards neither memory nor storage holds it.
    It also fails for a string with an unpaired surrogate: it is stored, but
    the payload of the next request carries U+FFFD in its place. *)
Lemma session_id_not_stored_or_not_sent :
  (get_property reply_empty_session (js "session_id") = Ok (VStr [])
   /\ sessionId after_empty_session = VNull
   /\ storage after_empty_session !! chatSessionId = None)
  /\ (get_property reply_lone_surrogate (js "session_id") = Ok (VStr [55296%N])
      /\ sessionId surrogate_page = VStr [55296%N]
      /\ storage surrogate_page !! chatSessionId = Some [55296%N]
      /\ option_map req_body (last (sent surrogate_page))
         = Some [(js "user_input", js "more"); (js "session_id", [65533%N])]).
Proof.
  split.
  - split; [reflexivity|]. split; vm_compute; reflexivity.
  - split; [reflexivity|]. split; [vm_compute; reflexivity|].
    split; vm_compute; reflexivity.
Qed.

(** C2, as stated, fails for a non-2xx status with a JSON body: nothing is
    caught or logged, and the bubble appended is the rendered body, not the
    apology.  It fails when the renderer throws on the apology: the error
    leaves the listener and no bubble is appended.  And it fails when an
    earlier bubble holds an element with the id of the indicator: the
    placeholder is not removed. *)
Lemma http_failure_with_json_not_caught :
  (console after_http_500 = []
   /\ last (chat after_http_500)
      = Some (@bot_bubble integer_engine (js "<p>again</p>" ++ [10%N]) (js "10:01 AM"))
   /\ last (chat after_http_500)
      <> Some (@bot_bubble integer_engine apology_markup (js "10:01 AM")))
  /\ (@settle integer_engine refusing_marked Rejected (js "10:01 AM") asked_page
      = (Throw MarkedThrew,
         set_chat [message_node user (Text (js "hi")) (js "10:00 AM")]
           (set_console [FetchRejected] asked_page)))
  /\ (chat (snd (settle_sample Rejected (js "10:03 AM") stray_page))
      = [message_node user (Text (js "hi")) (js "10:00 AM");
         emptied_bubble;
         message_node user (Text (js "more")) (js "10:02 AM");
         typing_node;
         @bot_bubble integer_engine apology_markup (js "10:03 AM")]).
Proof.
  split; [|split].
  - assert (Hlast : last (chat after_http_500)
                   = Some (@bot_bubble integer_engine (js "<p>again</p>" ++ [10%N])
                             (js "10:01 AM")))
      by (vm_compute; reflexivity).
    split; [vm_compute; reflexivity|]. split; [exact Hlast|].
    rewrite Hlast. intros H. injection H as H. vm_compute in H. discriminate H.
  - vm_compute. reflexivity.
  - vm_compute. reflexivity.
Qed.


(** C7, as stated, fails for a token with an unpaired surrogate: the
    response without [session_id] leaves it in memory and in storage, but
    the payload of the next submission carries U+FFFD in its place.  And for
    a token without a string form the next submission makes no request. *)
Lemma held_token_not_sent_unchanged :
  (sessionId surrogate_page = VStr [55296%N]
   /\ sessionId surrogate_next_page = VStr [55296%N]
   /\ storage surrogate_next_page !! chatSessionId = Some [55296%N]
   /\ option_map req_body (last (sent surrogate_next_page))
      = Some [(js "user_input", js "again"); (js "session_id", [65533%N])])
  /\ (sessionId object_token_next_page = sessionId object_token_page
      /\ sent object_token_next_page = sent object_token_page).
Proof.
  split.
  - split; [vm_compute; reflexivity|]. split; [vm_compute; reflexivity|].
    split; vm_compute; reflexivity.
  - split; vm_compute; reflexivity.
Qed.

(** C9, as stated, fails for a token whose string form is empty without the
    token being falsy, the empty array: it is stored, as the empty string,
    and sent, as an empty [session_id]. *)
Lemma empty_array_token_stored_and_sent :
  get_property reply_empty_array (js "session_id") = Ok (VArr [])
  /\ sessionId empty_array_page = VArr []
  /\ storage empty_array_page !! chatSessionId = Some []
  /\ option_map req_body (last (sent empty_array_page))
     = Some [(js "user_input", js "more"); (js "session_id", [])].
Proof.
  split; [reflexivity|]. split; [vm_compute; reflexivity|].
  split; vm_compute; reflexivity.
Qed.

(** C10, as stated, fails right after initialization when storage holds the
    empty string: memory holds [null], storage holds a string.  It fails
    too after a response whose [session_id] has no string form: memory was
    written, storage was not. *)
Lemma stored_token_disagrees :
  (sessionId page_with_empty_entry = VNull
   /\ storage page_with_empty_entry !! chatSessionId = Some []
   /\ ~ agree page_with_empty_entry)
  /\ (sessionId object_token_page = VObj [(js "toString", @VNum integer_engine 1%Z)]
      /\ storage object_token_page !! chatSessionId = None
      /\ ~ agree object_token_page).
Proof.
  assert (H1 : storage page_with_empty_entry !! chatSessionId = Some [])
    by (vm_compute; reflexivity).
  assert (H2 : sessionId object_token_page
               = VObj [(js "toString", @VNum integer_engine 1%Z)])
    by (vm_compute; reflexivity).
  split.
  - split; [reflexivity|]. split; [exact H1|].
    unfold agree. rewrite H1. intros [[_ H]|(s & H & _)]; discriminate H.
  - split; [exact H2|]. split; [vm_compute; reflexivity|].
    unfold agree. rewrite H2. intros [[H _]|(s & H & _)]; discriminate H.
Qed.

(** ** The further properties on sample pages *)

Lemma typing_indicators_bounded_witness :
  (typing_count (chat (run_sample two_questions fresh_page))
   <= inflight (run_sample two_questions fresh_page))%nat.
Proof.
  apply (@typing_indicators_bounded integer_engine paragraph_marked
           [] [] [] [] ∅ two_questions).
  - reflexivity.
  - intros markup H. vm_compute in H. injection H as <-. reflexivity.
  - repeat constructor; intros v markup Hv Hm; cbn in Hv;
      try contradiction.
    destruct Hv as [<-|[]]. vm_compute in Hm. injection Hm as <-. reflexivity.
Defined.

Lemma completion_appends_one_bot_bubble_witness :
  exists markup time,
    bubbles (chat (snd (settle_sample Rejected (js "10:01 AM") asked_page)))
    = bubbles (chat asked_page) ++ [purge (@bot_bubble integer_engine markup time)]
    /\ last (chat (snd (settle_sample Rejected (js "10:01 AM") asked_page)))
       = Some (@bot_bubble integer_engine markup time).
Proof.
  exact (@completion_appends_one_bot_bubble integer_engine paragraph_marked
           Rejected (js "10:01 AM") apology_markup asked_page eq_refl).
Defined.

Lemma listeners_do_not_throw_witness :
  fst (@listener integer_engine paragraph_marked
         (ESettle (Resolved 502 Malformed) (js "10:01 AM")) asked_page) = Ok tt.
Proof.
  exact (@listeners_do_not_throw integer_engine paragraph_marked apology_markup eq_refl
           (ESettle (Resolved 502 Malformed) (js "10:01 AM")) asked_page).
Defined.

Lemma apology_refused_escapes_witness :
  @settle integer_engine refusing_marked Rejected (js "10:01 AM") asked_page
  = (Throw MarkedThrew,
     @without_indicator integer_engine
       (set_console (console asked_page ++ [FetchRejected]) asked_page)).
Proof.
  exact (proj1 (@apology_refused_escapes integer_engine refusing_marked
                  Rejected FetchRejected (js "10:01 AM") asked_page eq_refl eq_refl)).
Defined.

Lemma reply_rendered_witness :
  fst (settle_sample (Resolved 200 (Parsed reply_abc123)) (js "10:01 AM") asked_page)
  = Ok tt.
Proof.
  assert (Hc : truthy (VStr (js "abc123") : Json) = true ->
               convertible (VStr (js "abc123") : Json))
    by (intros _; exists (js "abc123"); reflexivity).
  pose proof (proj1 (@reply_rendered integer_engine paragraph_marked
                       200%N reply_abc123
                       (VStr (js "abc123")) (VStr (js "hello")) (VStr (js "10:00 AM"))
                       (js "<p>hello</p>" ++ [10%N]) (js "10:00 AM") (js "10:01 AM")
                       asked_page eq_refl eq_refl eq_refl eq_refl Hc eq_refl)) as H.
  unfold settle_sample. rewrite H. reflexivity.
Defined.


Lemma shown_is_sent_witness :
  map to_usv (user_texts (chat (run_sample two_questions fresh_page)))
  = map to_usv (user_texts []) ++ omap user_input_of (sent (run_sample two_questions fresh_page)).
Proof.
  apply (@shown_is_sent integer_engine paragraph_marked [] [] [] [] ∅ two_questions).
  repeat constructor. intros v Hv _. exists (js "abc123").
  exact (eq_sym (f_equal (fun r => match r with
                                   | Ok x => to_string x
                                   | Throw e => Throw e
                                   end) Hv)).
Defined.

Lemma storage_frame_witness :
  storage (run_sample two_questions page_with_theme) !! js "theme"
  = storage page_with_theme !! js "theme".
Proof.
  apply (proj1 (@storage_frame integer_engine paragraph_marked
                  two_questions page_with_theme)).
  vm_compute. discriminate.
Defined.

Lemma token_survives_reload_witness :
  sessionId (reload [] [] [] [] (run_sample two_questions fresh_page))
  = sessionId (run_sample two_questions fresh_page).
Proof.
  apply (@token_survives_reload integer_engine paragraph_marked
           [] [] [] [] ∅ two_questions [] [] [] []).
  right. exists (js "abc123"). vm_compute. reflexivity.
Defined.

Lemma send_button_follows_typing_only_witness :
  input_value (run_sample [EInput (js "hi") 24; ESubmit (js "10:00 AM")] fresh_page) = []
  /\ send_disabled (run_sample [EInput (js "hi") 24; ESubmit (js "10:00 AM")] fresh_page)
     = false.
Proof.
  apply (proj2 (@send_button_follows_typing_only integer_engine paragraph_marked
                  (js "hi") (js "10:00 AM") 24%N fresh_page)).
  vm_compute. discriminate.
Defined.

Lemma enter_key_submits_witness :
  @listener integer_engine paragraph_marked
    (EKeydown (js "Enter") true (js "10:00 AM")) asked_page
  = (Ok tt, asked_page).
Proof.
  apply (proj1 (proj2 (@enter_key_submits integer_engine paragraph_marked
                         (js "Enter") (js "10:00 AM") true asked_page))).
  right. reflexivity.
Defined.

Lemma apology_iff_logged_witness :
  (exists data response timestamp markup time,
      awaited (Resolved 502 Malformed) = Ok data
      /\ get_property data (js "response") = Ok response
      /\ get_property data (js "timestamp") = Ok timestamp
      /\ paragraph_marked response = Some markup
      /\ @shown_time integer_engine timestamp (js "10:01 AM") = Ok time
      /\ console (snd (settle_sample (Resolved 502 Malformed) (js "10:01 AM") asked_page))
         = console asked_page
      /\ last (chat (snd (settle_sample (Resolved 502 Malformed) (js "10:01 AM") asked_page)))
         = Some (@bot_bubble integer_engine markup time))
  \/ (exists error,
        console (snd (settle_sample (Resolved 502 Malformed) (js "10:01 AM") asked_page))
        = console asked_page ++ [error]
        /\ last (chat (snd (settle_sample (Resolved 502 Malformed) (js "10:01 AM") asked_page)))
           = Some (@bot_bubble integer_engine apology_markup (js "10:01 AM"))).
Proof.
  exact (@apology_iff_logged integer_engine paragraph_marked
           (Resolved 502 Malformed) (js "10:01 AM") apology_markup asked_page eq_refl).
Defined.

Lemma quick_question_like_typing_witness :
  chat (@step integer_engine paragraph_marked
          (EQuick (Some (js "  hi ")) (js "10:00 AM")) fresh_page)
  = chat (run_sample [EInput (js "  hi ") 24; ESubmit (js "10:00 AM")] fresh_page).
Proof.
  exact (proj1 (@quick_question_like_typing integer_engine paragraph_marked
                  (js "  hi ") (js "10:00 AM") 24%N fresh_page eq_refl)).
Defined.

Lemma one_exchange_witness :
  typing_count
    (chat (snd (settle_sample Rejected (js "10:01 AM")
                  (snd (submit_sample (js "10:00 AM") typed_page)))))
  = O.
Proof.
  apply (@one_exchange integer_engine paragraph_marked
           Rejected (js "10:00 AM") (js "10:01 AM") apology_markup [] typed_page).
  - reflexivity.
  - reflexivity.
  - vm_compute. discriminate.
  - reflexivity.
  - reflexivity.
Defined.

Lemma stray_indicator_shadows_placeholder_witness :
  typing_count (chat (snd (@removeTypingIndicator integer_engine stray_page)))
  = typing_count (chat stray_page).
Proof.
  apply (@stray_indicator_shadows_placeholder integer_engine
           [message_node user (Text (js "hi")) (js "10:00 AM")]
           [message_node user (Text (js "more")) (js "10:02 AM"); typing_node]
           stray_bubble emptied_bubble stray_page).
  - reflexivity.
  - reflexivity.
  - reflexivity.
  - reflexivity.
  - vm_compute. reflexivity.
Defined.
